(** * UrbaPonics: decision logic of the air and water monitoring sketches

    A shallow embedding of the two Arduino sketches

    - [Air Monitoring Dashboard/code.ino]: intake/exhaust fan control with
      danger override and sticky hysteresis bands, the grow-light / fogger
      duty cycle driven by two [Ticker] objects, and the Blynk handlers;
    - [Water Monitoring Dashboard/code.ino]: the cooling thermostat, the
      manual-drain override and the DS18B20 read-out;

    followed by the properties of the design document that were checked
    against them. *)

From Stdlib Require Import String ZArith List Bool Lia QArith.
Import ListNotations.
Open Scope Z_scope.

(** ** Machine integers and sensor values *)

(** [int] on the ESP32 is 32 bits wide, two's complement. *)
Definition INT_MIN : Z := - 2 ^ 31.
Definition INT_MAX : Z := 2 ^ 31 - 1.

Definition is_int (z : Z) : Prop := INT_MIN <= z <= INT_MAX.

(** Result of an [int] addition or subtraction, wrapped to 32 bits. *)
Definition int_wrap (z : Z) : Z := (z + 2 ^ 31) mod 2 ^ 32 - 2 ^ 31.

(** [unsigned long] is 32 bits wide as well; arithmetic is modulo [2^32]. *)
Definition ulong_wrap (z : Z) : Z := z mod 2 ^ 32.

(** A [float] returned by a sensor driver: either NaN or a finite value. *)
Inductive Float : Type :=
| NaN
| Fin (q : Q).

Definition isnan (f : Float) : bool :=
  match f with NaN => true | Fin _ => false end.

(** C's [round]: nearest integer, halfway cases away from zero. *)
Definition round (q : Q) : Z :=
  let n := Qnum q in
  let d := Z.pos (Qden q) in
  if 0 <=? n then (2 * n + d) / (2 * d) else - ((2 * (- n) + d) / (2 * d)).

(** [(int)x] for a float [x]: truncation toward zero. *)
Definition trunc (q : Q) : Z := Z.quot (Qnum q) (Z.pos (Qden q)).

(** An [int] converted to [float]: 24 significant bits, rounded to
    nearest, ties to even; exact below [2^24] in magnitude. *)
Definition float_of_int (z : Z) : Z :=
  let a := Z.abs z in
  if a <? 2 ^ 24 then z
  else
    let u := 2 ^ (Z.log2 a - 23) in
    let q := a / u in
    let r := a mod u in
    let q' := if 2 * r <? u then q
              else if 2 * r >? u then q + 1
              else if Z.even q then q else q + 1 in
    Z.sgn z * (q' * u).

(** [(int)round(x)]; the conversion of NaN has no defined value, the model
    yields 0 (the value is only printed). *)
Definition int_of_round (f : Float) : Z :=
  match f with NaN => 0 | Fin q => round q end.

(** Arduino's [map]: linear rescaling in [long] arithmetic. *)
Definition map_range (x in_min in_max out_min out_max : Z) : Z :=
  Z.quot ((x - in_min) * (out_max - out_min)) (in_max - in_min) + out_min.

(** Arduino's [constrain]. *)
Definition constrain (amt low high : Z) : Z :=
  if amt <? low then low else if amt >? high then high else amt.

(** Relay and fan outputs are active low. *)
Inductive Level : Type := LOW | HIGH.

Definition active_low (on : bool) : Level := if on then LOW else HIGH.

(** A [Ticker] object owns at most one armed timer: [once] stops and
    deletes the timer armed before and arms the new one, [detach] disarms
    it.  An armed timer is its deadline (in seconds) and what to call. *)
Definition Ticker (A : Type) : Type := option (Z * A).

Definition once {A : Type} (now seconds : Z) (callback : A) (_ : Ticker A)
  : Ticker A := Some (now + seconds, callback).

Definition detach {A : Type} (_ : Ticker A) : Ticker A := None.

(** ** Air Monitoring Dashboard *)

Module Air.

Inductive Pin : Type :=
| RELAY_LIGHT_PIN | RELAY_FOGGER_PIN | FAN_INTAKE_PIN | FAN_EXHAUST_PIN.

Definition Pin_eqb (a b : Pin) : bool :=
  match a, b with
  | RELAY_LIGHT_PIN, RELAY_LIGHT_PIN
  | RELAY_FOGGER_PIN, RELAY_FOGGER_PIN
  | FAN_INTAKE_PIN, FAN_INTAKE_PIN
  | FAN_EXHAUST_PIN, FAN_EXHAUST_PIN => true
  | _, _ => false
  end.

Inductive VPin : Type :=
| V0 | V1 | V2 | V3 | V4 | V5 | V6 | V7 | V8 | V9 | V10 | V11 | V12.

Definition LIGHT_DEFAULT_HOURS : Z := 6.
Definition FOGGER_DEFAULT_SECONDS : Z := 5.

Definition TEMP_DANGER_LOW : Z := 10.
Definition TEMP_DANGER_HIGH : Z := 40.
Definition HUM_DANGER_LOW : Z := 30.
Definition HUM_DANGER_HIGH : Z := 90.
Definition CO2_DANGER_LOW : Z := 100.
Definition CO2_DANGER_HIGH : Z := 2000.

(** Hysteresis margin. *)
Definition HYST : Z := 2.

(** User thresholds (globals [minTemp] .. [maxCO2]). *)
Record Thresholds : Type := mkThresholds {
  minTemp : Z; maxTemp : Z;
  minHumid : Z; maxHumid : Z;
  minCO2 : Z; maxCO2 : Z
}.

(** The function-local statics of [controlFans]. *)
Record FanState : Type := mkFanState {
  intakeFanState : bool; exhaustFanState : bool;
  tempHigh : bool; tempLow : bool;
  humHigh : bool; humLow : bool;
  co2High : bool; co2Low : bool
}.

(** What a timer armed on [lightTicker] calls. *)
Inductive LightCallback : Type :=
| FoggerHalfway   (* scheduleFoggerNow *)
| LightOff        (* the lambda that switches the light off *)
| NextCycle.      (* scheduleGrowLight *)

(** What a timer armed on [foggerOffTicker] calls (one lambda only). *)
Inductive FoggerCallback : Type :=
| FoggerOff.

(** Light and fogger globals and the two tickers. *)
Record Scheduler : Type := mkScheduler {
  lightState : bool;
  foggerState : bool;
  foggerActive : bool;
  schedulerEnabled : bool;
  lastSchedulerState : bool;
  userLightOnHours : Z;
  userFoggerSeconds : Z;
  nextLightOffSec : Z;
  lightTicker : Ticker LightCallback;
  foggerOffTicker : Ticker FoggerCallback
}.

(** The statics of [readAndSendSensors]. *)
Record LastSent : Type := mkLastSent {
  lastTemp : Z; lastHum : Z; lastCO2 : Z
}.

(** The board: wall clock in seconds, link state, and the outputs made so
    far, newest first, each stamped with the time it was made. *)
Record Board : Type := mkBoard {
  clock : Z;
  connected : bool;
  digital : list (Z * Pin * Level);
  virtual : list (Z * VPin * Z)
}.

Record Sketch : Type := mkSketch {
  thr : Thresholds;
  fan : FanState;
  sch : Scheduler;
  sent : LastSent;
  board : Board
}.

Definition default_thresholds : Thresholds :=
  mkThresholds 20 30 65 76 400 1000.

Definition initial_fan : FanState :=
  mkFanState false false false false false false false false.

Definition initial_scheduler : Scheduler :=
  mkScheduler false false false false false
              LIGHT_DEFAULT_HOURS FOGGER_DEFAULT_SECONDS 0 None None.

Definition initial_sent : LastSent := mkLastSent (-999) (-999) (-999).

(** State after [setup]: the four outputs were driven HIGH (off). *)
Definition initial : Sketch :=
  mkSketch default_thresholds initial_fan initial_scheduler initial_sent
           (mkBoard 0 false
                    [(0, FAN_EXHAUST_PIN, HIGH); (0, FAN_INTAKE_PIN, HIGH);
                     (0, RELAY_LIGHT_PIN, HIGH); (0, RELAY_FOGGER_PIN, HIGH)]
                    []).

(** *** Updating the globals *)

Definition with_thr (f : Thresholds -> Thresholds) (s : Sketch) : Sketch :=
  mkSketch (f (thr s)) (fan s) (sch s) (sent s) (board s).

Definition with_fan (f : FanState) (s : Sketch) : Sketch :=
  mkSketch (thr s) f (sch s) (sent s) (board s).

Definition with_sch (f : Scheduler -> Scheduler) (s : Sketch) : Sketch :=
  mkSketch (thr s) (fan s) (f (sch s)) (sent s) (board s).

Definition with_sent (l : LastSent) (s : Sketch) : Sketch :=
  mkSketch (thr s) (fan s) (sch s) l (board s).

Definition with_board (f : Board -> Board) (s : Sketch) : Sketch :=
  mkSketch (thr s) (fan s) (sch s) (sent s) (f (board s)).

Definition set_lightState (b : bool) (c : Scheduler) : Scheduler :=
  mkScheduler b (foggerState c) (foggerActive c) (schedulerEnabled c)
              (lastSchedulerState c) (userLightOnHours c)
              (userFoggerSeconds c) (nextLightOffSec c) (lightTicker c)
              (foggerOffTicker c).

Definition set_foggerState (b : bool) (c : Scheduler) : Scheduler :=
  mkScheduler (lightState c) b (foggerActive c) (schedulerEnabled c)
              (lastSchedulerState c) (userLightOnHours c)
              (userFoggerSeconds c) (nextLightOffSec c) (lightTicker c)
              (foggerOffTicker c).

Definition set_foggerActive (b : bool) (c : Scheduler) : Scheduler :=
  mkScheduler (lightState c) (foggerState c) b (schedulerEnabled c)
              (lastSchedulerState c) (userLightOnHours c)
              (userFoggerSeconds c) (nextLightOffSec c) (lightTicker c)
              (foggerOffTicker c).

Definition set_enabled (b : bool) (c : Scheduler) : Scheduler :=
  mkScheduler (lightState c) (foggerState c) (foggerActive c) b b
              (userLightOnHours c) (userFoggerSeconds c)
              (nextLightOffSec c) (lightTicker c) (foggerOffTicker c).

Definition set_userLightOnHours (h : Z) (c : Scheduler) : Scheduler :=
  mkScheduler (lightState c) (foggerState c) (foggerActive c)
              (schedulerEnabled c) (lastSchedulerState c) h
              (userFoggerSeconds c) (nextLightOffSec c) (lightTicker c)
              (foggerOffTicker c).

Definition set_userFoggerSeconds (n : Z) (c : Scheduler) : Scheduler :=
  mkScheduler (lightState c) (foggerState c) (foggerActive c)
              (schedulerEnabled c) (lastSchedulerState c)
              (userLightOnHours c) n (nextLightOffSec c) (lightTicker c)
              (foggerOffTicker c).

Definition set_nextLightOffSec (n : Z) (c : Scheduler) : Scheduler :=
  mkScheduler (lightState c) (foggerState c) (foggerActive c)
              (schedulerEnabled c) (lastSchedulerState c)
              (userLightOnHours c) (userFoggerSeconds c) n (lightTicker c)
              (foggerOffTicker c).

Definition set_lightTicker (t : Ticker LightCallback) (c : Scheduler)
  : Scheduler :=
  mkScheduler (lightState c) (foggerState c) (foggerActive c)
              (schedulerEnabled c) (lastSchedulerState c)
              (userLightOnHours c) (userFoggerSeconds c)
              (nextLightOffSec c) t (foggerOffTicker c).

Definition set_foggerOffTicker (t : Ticker FoggerCallback) (c : Scheduler)
  : Scheduler :=
  mkScheduler (lightState c) (foggerState c) (foggerActive c)
              (schedulerEnabled c) (lastSchedulerState c)
              (userLightOnHours c) (userFoggerSeconds c)
              (nextLightOffSec c) (lightTicker c) t.

(** *** Outputs *)

Definition digitalWrite (p : Pin) (l : Level) (s : Sketch) : Sketch :=
  with_board (fun b => mkBoard (clock b) (connected b)
                               ((clock b, p, l) :: digital b) (virtual b)) s.

(** [Blynk.virtualWrite]: the value sent on a virtual pin. *)
Definition virtualWrite (p : VPin) (v : Z) (s : Sketch) : Sketch :=
  with_board (fun b => mkBoard (clock b) (connected b) (digital b)
                               ((clock b, p, v) :: virtual b)) s.

(** Level currently driven on a pin: the newest write to it. *)
Fixpoint last_write (p : Pin) (l : list (Z * Pin * Level)) : option Level :=
  match l with
  | [] => None
  | (_, p', v) :: rest => if Pin_eqb p p' then Some v else last_write p rest
  end.

Definition pin_level (p : Pin) (s : Sketch) : option Level :=
  last_write p (digital (board s)).

(** *** Relay control (lines 58-68) *)

Definition setLightState (state : bool) (s : Sketch) : Sketch :=
  digitalWrite RELAY_LIGHT_PIN (active_low state)
               (with_sch (set_lightState state) s).

Definition setFoggerState (state : bool) (s : Sketch) : Sketch :=
  digitalWrite RELAY_FOGGER_PIN (active_low state)
               (with_sch (set_foggerState state) s).

(** *** Grow light and fogger scheduling (lines 72-98) *)

Definition scheduleFoggerNow (s : Sketch) : Sketch :=
  if negb (lightState (sch s)) then s
  else if negb (foggerActive (sch s)) then
    let s1 := setFoggerState true s in
    let s2 := with_sch (set_foggerActive true) s1 in
    with_sch (fun c => set_foggerOffTicker
                         (once (clock (board s2)) (userFoggerSeconds c)
                               FoggerOff (foggerOffTicker c)) c) s2
  else s.

(** The lambda armed on [foggerOffTicker]. *)
Definition foggerOffCallback (s : Sketch) : Sketch :=
  with_sch (set_foggerActive false) (setFoggerState false s).

Definition scheduleGrowLight (s : Sketch) : Sketch :=
  let onSec := ulong_wrap (userLightOnHours (sch s) * 3600) in
  let offSec := ulong_wrap ((12 - userLightOnHours (sch s)) * 3600) in
  let s1 := with_sch (set_nextLightOffSec offSec) s in
  let s2 := setLightState true s1 in
  let s3 := scheduleFoggerNow s2 in
  let s4 := with_sch (fun c => set_lightTicker
                                 (once (clock (board s3)) (onSec / 2)
                                       FoggerHalfway (lightTicker c)) c) s3 in
  with_sch (fun c => set_lightTicker
                       (once (clock (board s4)) onSec LightOff
                             (lightTicker c)) c) s4.

(** The lambda armed on [lightTicker] for the end of the light phase. *)
Definition lightOffCallback (s : Sketch) : Sketch :=
  let s1 := setLightState false s in
  with_sch (fun c => set_lightTicker
                       (once (clock (board s1)) (nextLightOffSec c)
                             NextCycle (lightTicker c)) c) s1.

(** *** Fans control (lines 102-204) *)

(** Lines 109-111 and the test on line 113. *)
Definition danger (temp hum co2 : Z) : bool :=
  let dangerTemp :=
    (temp <=? TEMP_DANGER_LOW) || (temp >=? TEMP_DANGER_HIGH) in
  let dangerHum :=
    (hum <=? HUM_DANGER_LOW) || (hum >=? HUM_DANGER_HIGH) in
  let dangerCO2 :=
    (co2 <=? CO2_DANGER_LOW) || (co2 >=? CO2_DANGER_HIGH) in
  dangerTemp || dangerHum || dangerCO2.

(** [if (v >= max) high = true; else if (v <= max - HYST) high = false;] *)
Definition update_high (v max_sp : Z) (high : bool) : bool :=
  if v >=? max_sp then true
  else if v <=? int_wrap (max_sp - HYST) then false
  else high.

(** [if (v <= min) low = true; else if (v >= min + HYST) low = false;] *)
Definition update_low (v min_sp : Z) (low : bool) : bool :=
  if v <=? min_sp then true
  else if v >=? int_wrap (min_sp + HYST) then false
  else low.

(** Lines 157-193: the fan table, applied to the six sticky flags; the
    result is [(wantIntake, wantExhaust)]. *)
Definition fan_table (tH tL hH hL cH cL : bool) : bool * bool :=
  let wantIntake := false in
  let wantExhaust := false in
  (* Temperature *)
  let '(wantIntake, wantExhaust) :=
    if tH then (true, true)
    else if tL then (true, wantExhaust)
    else (wantIntake, wantExhaust) in
  (* Humidity *)
  let wantExhaust :=
    if hH then true
    else if hL then false
    else wantExhaust in
  (* CO2 *)
  let '(wantIntake, wantExhaust) :=
    if cH then (wantIntake, true)
    else if cL then (true, wantExhaust)
    else (wantIntake, wantExhaust) in
  (wantIntake, wantExhaust).

(** The statics after one call of [controlFans]. *)
Definition fan_step (t : Thresholds) (f : FanState) (temp hum co2 : Z)
  : FanState :=
  if danger temp hum co2 then
    mkFanState false true
               (tempHigh f) (tempLow f) (humHigh f) (humLow f)
               (co2High f) (co2Low f)
  else
    let tH := update_high temp (maxTemp t) (tempHigh f) in
    let tL := update_low temp (minTemp t) (tempLow f) in
    let hH := update_high hum (maxHumid t) (humHigh f) in
    let hL := update_low hum (minHumid t) (humLow f) in
    let cH := update_high co2 (maxCO2 t) (co2High f) in
    let cL := update_low co2 (minCO2 t) (co2Low f) in
    let '(wantIntake, wantExhaust) := fan_table tH tL hH hL cH cL in
    mkFanState wantIntake wantExhaust tH tL hH hL cH cL.

(** [controlFans]: both paths end by driving the two fan pins. *)
Definition controlFans (temp hum co2 : Z) (s : Sketch) : Sketch :=
  let f := fan_step (thr s) (fan s) temp hum co2 in
  digitalWrite FAN_EXHAUST_PIN (active_low (exhaustFanState f))
    (digitalWrite FAN_INTAKE_PIN (active_low (intakeFanState f))
       (with_fan f s)).

(** *** Sensor task (lines 209-259) *)

Definition send_if_changed (p : VPin) (v last : Z) (s : Sketch) : Sketch :=
  if negb (v =? last) then virtualWrite p v s else s.

Definition readAndSendSensors (temperature humidity : Float) (mq135_raw : Z)
           (s : Sketch) : Sketch :=
  let co2 := map_range mq135_raw 0 4095 400 2000 in
  if negb (isnan temperature) && negb (isnan humidity) then
    let tempInt := int_of_round temperature in
    let humInt := int_of_round humidity in
    let co2Int := co2 in
    let s1 := controlFans tempInt humInt co2Int s in
    if connected (board s1) then
      let l := sent s1 in
      let s2 := send_if_changed V1 tempInt (lastTemp l) s1 in
      let s3 := send_if_changed V2 humInt (lastHum l) s2 in
      let s4 := send_if_changed V3 co2Int (lastCO2 l) s3 in
      with_sent (mkLastSent tempInt humInt co2Int) s4
    else s1
  else s.

(** *** Scheduler management (lines 263-283) *)

Definition enableScheduler (enable : bool) (s : Sketch) : Sketch :=
  let s1 := with_sch (set_enabled enable) s in
  let s2 := with_sch (fun c => set_lightTicker (detach (lightTicker c)) c)
                     s1 in
  let s3 := with_sch (fun c => set_foggerOffTicker
                                 (detach (foggerOffTicker c)) c) s2 in
  let s4 := if enable then scheduleGrowLight s3
            else setFoggerState false (setLightState false s3) in
  if connected (board s4)
  then virtualWrite V0 (Z.b2z (schedulerEnabled (sch s4))) s4
  else s4.

(** *** Blynk handlers (lines 287-328) *)

Definition set_threshold (p : VPin) (v : Z) (t : Thresholds) : Thresholds :=
  match p with
  | V4 => mkThresholds v (maxTemp t) (minHumid t) (maxHumid t)
                       (minCO2 t) (maxCO2 t)
  | V5 => mkThresholds (minTemp t) v (minHumid t) (maxHumid t)
                       (minCO2 t) (maxCO2 t)
  | V6 => mkThresholds (minTemp t) (maxTemp t) v (maxHumid t)
                       (minCO2 t) (maxCO2 t)
  | V9 => mkThresholds (minTemp t) (maxTemp t) (minHumid t) v
                       (minCO2 t) (maxCO2 t)
  | V10 => mkThresholds (minTemp t) (maxTemp t) (minHumid t) (maxHumid t)
                        v (maxCO2 t)
  | V11 => mkThresholds (minTemp t) (maxTemp t) (minHumid t) (maxHumid t)
                        (minCO2 t) v
  | _ => t
  end.

(** [BLYNK_WRITE(V7)]: light hours. *)
Definition write_V7 (param : Z) (s : Sketch) : Sketch :=
  if negb (schedulerEnabled (sch s)) then
    let hours := param in
    if (hours >? 0) && (hours <? 12)
    then with_sch (set_userLightOnHours hours) s
    else virtualWrite V6 (userLightOnHours (sch s)) s
  else virtualWrite V6 (userLightOnHours (sch s)) s.

(** [BLYNK_WRITE(V8)]: fogger seconds. *)
Definition write_V8 (param : Z) (s : Sketch) : Sketch :=
  if negb (schedulerEnabled (sch s)) then
    let seconds := param in
    if (seconds >=? 5) && (seconds <=? 180)
    then with_sch (set_userFoggerSeconds seconds) s
    else virtualWrite V7 (userFoggerSeconds (sch s)) s
  else virtualWrite V7 (userFoggerSeconds (sch s)) s.

(** [BLYNK_WRITE(pin)] with [param.asInt() = param]; pins without a
    handler are ignored. *)
Definition blynk_write (p : VPin) (param : Z) (s : Sketch) : Sketch :=
  match p with
  | V0 => enableScheduler (negb (param =? 0)) s
  | V4 | V5 | V6 | V9 | V10 | V11 => with_thr (set_threshold p param) s
  | V7 => write_V7 param s
  | V8 => write_V8 param s
  | _ => s
  end.

Definition set_connected (b : bool) (s : Sketch) : Sketch :=
  with_board (fun o => mkBoard (clock o) b (digital o) (virtual o)) s.

(** [BLYNK_CONNECTED]: the link is up; [syncVirtual] only asks the server
    to resend values, which then arrive as writes of their own. *)
Definition blynk_connected (s : Sketch) : Sketch :=
  let s1 := set_connected true s in
  if lastSchedulerState (sch s1) then enableScheduler true s1
  else enableScheduler false s1.

(** *** Timers *)

Definition set_clock (t : Z) (s : Sketch) : Sketch :=
  with_board (fun o => mkBoard t (connected o) (digital o) (virtual o)) s.

Definition run_light_callback (cb : LightCallback) (s : Sketch) : Sketch :=
  match cb with
  | FoggerHalfway => scheduleFoggerNow s
  | LightOff => lightOffCallback s
  | NextCycle => scheduleGrowLight s
  end.

(** Expiry of the timer armed on [lightTicker]: the clock is at its
    deadline, the one-shot timer is spent, its callback runs. *)
Definition fire_light (s : Sketch) : Sketch :=
  match lightTicker (sch s) with
  | None => s
  | Some (d, cb) =>
      run_light_callback cb
        (with_sch (set_lightTicker None)
                  (set_clock (Z.max d (clock (board s))) s))
  end.

(** Expiry of the timer armed on [foggerOffTicker]. *)
Definition fire_fogger (s : Sketch) : Sketch :=
  match foggerOffTicker (sch s) with
  | None => s
  | Some (d, FoggerOff) =>
      foggerOffCallback
        (with_sch (set_foggerOffTicker None)
                  (set_clock (Z.max d (clock (board s))) s))
  end.

Inductive TickerId : Type := LightT | FoggerT.

Definition fire (i : TickerId) (s : Sketch) : Sketch :=
  match i with LightT => fire_light s | FoggerT => fire_fogger s end.

(** The armed timer that expires first, if it is due by time [t]. *)
Definition next_due (t : Z) (s : Sketch) : option TickerId :=
  match lightTicker (sch s), foggerOffTicker (sch s) with
  | Some (dl, _), Some (df, _) =>
      if dl <=? df then (if dl <=? t then Some LightT else None)
      else (if df <=? t then Some FoggerT else None)
  | Some (dl, _), None => if dl <=? t then Some LightT else None
  | None, Some (df, _) => if df <=? t then Some FoggerT else None
  | None, None => None
  end.

(** Let time pass until [t], firing the due timers in order of deadline.
    [fuel] bounds the number of expiries; the clock reads [t] once all
    due timers have fired. *)
Fixpoint advance (fuel : nat) (t : Z) (s : Sketch) : Sketch :=
  match fuel with
  | O => s
  | S n =>
      match next_due t s with
      | None => set_clock (Z.max t (clock (board s))) s
      | Some i => advance n t (fire i s)
      end
  end.

(** Everything that can happen to the sketch. *)
Inductive Event : Type :=
| Write (p : VPin) (param : Z)
| Connected
| Disconnected
| Sensors (temperature humidity : Float) (mq135_raw : Z)
| Expire (i : TickerId)
| Elapse (fuel : nat) (t : Z).

Definition handle (e : Event) (s : Sketch) : Sketch :=
  match e with
  | Write p v => blynk_write p v s
  | Connected => blynk_connected s
  | Disconnected => set_connected false s
  | Sensors t h r => readAndSendSensors t h r s
  | Expire i => fire i s
  | Elapse fuel t => advance fuel t s
  end.

Definition run (evs : list Event) (s : Sketch) : Sketch :=
  fold_left (fun st e => handle e st) evs s.

End Air.

(** ** Water Monitoring Dashboard *)

Module Water.

(** What the DS18B20 driver delivers for sensor 0. *)
Inductive DS18B20 : Type :=
| Disconnected
| Celsius (q : Q).

Definition DEVICE_DISCONNECTED_C : Q := inject_Z (-127).

Definition getTempCByIndex (r : DS18B20) : Q :=
  match r with
  | Disconnected => DEVICE_DISCONNECTED_C
  | Celsius q => q
  end.

(** Lines 56-61. *)
Definition readWaterTemp (r : DS18B20) : Z :=
  let temp := getTempCByIndex r in
  if Qeq_bool temp DEVICE_DISCONNECTED_C then -99
  else trunc temp.

(** The globals, the static [coolingState] of [handleActuators] and the
    levels driven on the three relays.  The [float] thresholds only ever
    hold the initial values and integers written by the handlers, as
    converted to [float]; they are kept as rationals. *)
Record Sketch : Type := mkSketch {
  OPTIMAL_TEMP_MAX : Q;
  OPTIMAL_TEMP_MIN : Q;
  TEMP_HYSTERESIS : Q;
  coolingActive : bool;
  manualDrainActive : bool;
  coolingState : bool;
  RELAY_PELTIER : Level;
  RELAY_PUMP : Level;
  RELAY_FAN : Level
}.

(** State after [setup]. *)
Definition initial : Sketch :=
  mkSketch (inject_Z 28) (inject_Z 24) (inject_Z 1)
           false false false HIGH HIGH HIGH.

(** Lines 68-73. *)
Definition controlCoolingSystem (on : bool) (s : Sketch) : Sketch :=
  mkSketch (OPTIMAL_TEMP_MAX s) (OPTIMAL_TEMP_MIN s) (TEMP_HYSTERESIS s)
           on (manualDrainActive s) (coolingState s)
           (active_low on) (active_low on) (active_low on).

Definition set_coolingState (b : bool) (s : Sketch) : Sketch :=
  mkSketch (OPTIMAL_TEMP_MAX s) (OPTIMAL_TEMP_MIN s) (TEMP_HYSTERESIS s)
           (coolingActive s) (manualDrainActive s) b
           (RELAY_PELTIER s) (RELAY_PUMP s) (RELAY_FAN s).

(** Pump on, Peltier and fan off. *)
Definition drain_outputs (s : Sketch) : Sketch :=
  mkSketch (OPTIMAL_TEMP_MAX s) (OPTIMAL_TEMP_MIN s) (TEMP_HYSTERESIS s)
           (coolingActive s) (manualDrainActive s) (coolingState s)
           HIGH LOW HIGH.

(** Lines 112-159; [r] is what the sensor delivers during this call. *)
Definition handleActuators (r : DS18B20) (s : Sketch) : Sketch :=
  if manualDrainActive s then drain_outputs s
  else
    let temp := readWaterTemp r in
    let upperOn := OPTIMAL_TEMP_MAX s in
    let upperOff := (OPTIMAL_TEMP_MAX s - TEMP_HYSTERESIS s)%Q in
    let lowerOff := OPTIMAL_TEMP_MIN s in
    let lowerOn := (OPTIMAL_TEMP_MIN s + TEMP_HYSTERESIS s)%Q in
    let coolingState' :=
      if negb (coolingState s) then
        if Qle_bool upperOn (inject_Z temp) then true else coolingState s
      else
        if Qle_bool (inject_Z temp) lowerOff then false else coolingState s in
    controlCoolingSystem coolingState' (set_coolingState coolingState' s).

(** [BLYNK_WRITE(V6)]. *)
Definition write_V6 (val : Z) (s : Sketch) : Sketch :=
  mkSketch (inject_Z (float_of_int val)) (OPTIMAL_TEMP_MIN s)
           (TEMP_HYSTERESIS s)
           (coolingActive s) (manualDrainActive s) (coolingState s)
           (RELAY_PELTIER s) (RELAY_PUMP s) (RELAY_FAN s).

(** [BLYNK_WRITE(V5)]. *)
Definition write_V5 (val : Z) (s : Sketch) : Sketch :=
  mkSketch (OPTIMAL_TEMP_MAX s) (inject_Z (float_of_int val))
           (TEMP_HYSTERESIS s)
           (coolingActive s) (manualDrainActive s) (coolingState s)
           (RELAY_PELTIER s) (RELAY_PUMP s) (RELAY_FAN s).

(** [BLYNK_WRITE(V7)]: manual drain button. *)
Definition write_V7 (state : Z) (s : Sketch) : Sketch :=
  let active := state =? 1 in
  let s1 :=
    mkSketch (OPTIMAL_TEMP_MAX s) (OPTIMAL_TEMP_MIN s) (TEMP_HYSTERESIS s)
             (coolingActive s) active (coolingState s)
             (RELAY_PELTIER s) (RELAY_PUMP s) (RELAY_FAN s) in
  if active then drain_outputs s1
  else
    mkSketch (OPTIMAL_TEMP_MAX s1) (OPTIMAL_TEMP_MIN s1) (TEMP_HYSTERESIS s1)
             (coolingActive s1) (manualDrainActive s1) (coolingState s1)
             (RELAY_PELTIER s1) HIGH (RELAY_FAN s1).

(** The three relay levels. *)
Definition relays (s : Sketch) : Level * Level * Level :=
  (RELAY_PELTIER s, RELAY_PUMP s, RELAY_FAN s).

(** The actuator task run once per reading of a list. *)
Definition actuator_ticks (rs : list DS18B20) (s : Sketch) : Sketch :=
  fold_left (fun st r => handleActuators r st) rs s.

(** *** Sensor read-out and telemetry (lines 27-109) *)

Inductive VPin : Type := V0 | V1 | V2 | V3 | V4 | V5 | V6 | V7.

(** What [Blynk.virtualWrite] is given: a number or a text. *)
Inductive Payload : Type :=
| PInt (z : Z)
| PStr (s : string).

Definition TEMP_THRESHOLD : Z := 1.
Definition TURBIDITY_THRESHOLD : Z := 10.

(** Lines 38-43.  [ntu] is an integer between 0 and 3000, for which
    [(int)(ntu / 10.0)] is the integer quotient. *)
Definition readTurbidityNTU (rawValue : Z) : Z :=
  let ntu := map_range rawValue 1595 0 0 3000 in
  let ntu := constrain ntu 0 3000 in
  Z.quot ntu 10.

(** Lines 45-54.  The arithmetic is exact on the values
    [readTurbidityNTU] returns: away from the three thresholds the
    clarity is a third of a unit or more from each of them. *)
Definition getTurbidityLabel (ntu : Z) : string :=
  let ntuScaled := inject_Z (int_wrap (ntu * 10)) in
  let haziness := (ntuScaled / inject_Z 3000 * inject_Z 100)%Q in
  let clarity := (inject_Z 100 - haziness)%Q in
  if negb (Qle_bool clarity (inject_Z 80)) then "Clear"%string
  else if negb (Qle_bool clarity (inject_Z 50)) then "Slightly Cloudy"%string
  else if negb (Qle_bool clarity (inject_Z 20)) then "Cloudy"%string
  else "Very Hazy"%string.

(** Lines 63-65: 1 is OK, 0 is LOW. *)
Definition readWaterLevel (pin : Level) : Z :=
  match pin with HIGH => 0 | LOW => 1 end.

(** The last-sent globals and what was written to the dashboard so far,
    newest first. *)
Record Telemetry : Type := mkTelemetry {
  lastTemp : Z;
  lastTurbidity : Z;
  lastWaterLevel : Z;
  lastTurbidityLabel : string;
  written : list (VPin * Payload)
}.

Definition initial_telemetry : Telemetry :=
  mkTelemetry (-999) (-999) (-1) EmptyString [].

(** Lines 79-109; the arguments are what the three sensors deliver during
    the call. *)
Definition sendSensorData (r : DS18B20) (rawValue : Z) (levelPin : Level)
           (t : Telemetry) : Telemetry :=
  let temp := readWaterTemp r in
  let turbidity := readTurbidityNTU rawValue in
  let waterLevel := readWaterLevel levelPin in
  let t1 :=
    if Z.abs (int_wrap (temp - lastTemp t)) >=? TEMP_THRESHOLD then
      mkTelemetry temp (lastTurbidity t) (lastWaterLevel t)
                  (lastTurbidityLabel t) ((V0, PInt temp) :: written t)
    else t in
  let t2 :=
    if Z.abs (int_wrap (turbidity - lastTurbidity t1))
       >=? TURBIDITY_THRESHOLD then
      mkTelemetry (lastTemp t1) turbidity (lastWaterLevel t1)
                  (lastTurbidityLabel t1)
                  ((V1, PInt turbidity) :: written t1)
    else t1 in
  let turbidityLabel := getTurbidityLabel turbidity in
  let t3 :=
    if negb (String.eqb turbidityLabel (lastTurbidityLabel t2)) then
      mkTelemetry (lastTemp t2) (lastTurbidity t2) (lastWaterLevel t2)
                  turbidityLabel ((V4, PStr turbidityLabel) :: written t2)
    else t2 in
  if negb (waterLevel =? lastWaterLevel t3) then
    mkTelemetry (lastTemp t3) (lastTurbidity t3) waterLevel
                (lastTurbidityLabel t3)
                ((V3, PStr (if waterLevel =? 0 then "LOW"%string else "OK"%string))
                 :: (V2, PInt waterLevel) :: written t3)
  else t3.

End Water.

(** ** Vocabulary of the design document *)

Import Air.

(** The monitored channels of the environmental variant. *)
Inductive Channel : Type := Temperature | Humidity | GasConcentration.

Definition value (ch : Channel) (temp hum co2 : Z) : Z :=
  match ch with
  | Temperature => temp
  | Humidity => hum
  | GasConcentration => co2
  end.

Definition min_setpoint (ch : Channel) (t : Thresholds) : Z :=
  match ch with
  | Temperature => minTemp t
  | Humidity => minHumid t
  | GasConcentration => minCO2 t
  end.

Definition max_setpoint (ch : Channel) (t : Thresholds) : Z :=
  match ch with
  | Temperature => maxTemp t
  | Humidity => maxHumid t
  | GasConcentration => maxCO2 t
  end.

Definition danger_low (ch : Channel) : Z :=
  match ch with
  | Temperature => TEMP_DANGER_LOW
  | Humidity => HUM_DANGER_LOW
  | GasConcentration => CO2_DANGER_LOW
  end.

Definition danger_high (ch : Channel) : Z :=
  match ch with
  | Temperature => TEMP_DANGER_HIGH
  | Humidity => HUM_DANGER_HIGH
  | GasConcentration => CO2_DANGER_HIGH
  end.

(** DangerFlag of a channel: [value <= danger_low || value >= danger_high]. *)
Definition DangerFlag (ch : Channel) (v : Z) : bool :=
  (v <=? danger_low ch) || (v >=? danger_high ch).

(** The sticky High and Low flags of a channel. *)
Definition band_high (ch : Channel) (f : FanState) : bool :=
  match ch with
  | Temperature => tempHigh f
  | Humidity => humHigh f
  | GasConcentration => co2High f
  end.

Definition band_low (ch : Channel) (f : FanState) : bool :=
  match ch with
  | Temperature => tempLow f
  | Humidity => humLow f
  | GasConcentration => co2Low f
  end.

(** All six sticky flags. *)
Definition bands (f : FanState) : bool * bool * bool * bool * bool * bool :=
  (tempHigh f, tempLow f, humHigh f, humLow f, co2High f, co2Low f).

(** Contribution of each channel's rule taken on its own, as the design
    document words it, as [(intake, exhaust)]: temperature High asks for
    both fans, temperature Low for intake; humidity High asks for exhaust,
    humidity Low changes nothing; gas High asks for exhaust, gas Low for
    intake. *)
Definition temperature_rule (tH tL : bool) : bool * bool :=
  if tH then (true, true) else if tL then (true, false) else (false, false).

Definition humidity_rule (hH hL : bool) : bool * bool :=
  if hH then (false, true) else (false, false).

Definition gas_rule (cH cL : bool) : bool * bool :=
  if cH then (false, true) else if cL then (true, false) else (false, false).

(** The OR of the per-channel contributions. *)
Definition or_combined (f : FanState) : bool * bool :=
  let t := temperature_rule (tempHigh f) (tempLow f) in
  let h := humidity_rule (humHigh f) (humLow f) in
  let c := gas_rule (co2High f) (co2Low f) in
  (fst t || fst h || fst c, snd t || snd h || snd c).

(** High and Low of channel [ch] are not both set. *)
Definition exclusive_on (ch : Channel) (f : FanState) : Prop :=
  band_high ch f && band_low ch f = false.

(** High and Low of every channel are not both set. *)
Definition exclusive (f : FanState) : Prop :=
  forall ch, exclusive_on ch f.

(** The setpoints of channel [ch] are [int]s at least one margin apart. *)
Definition separated_on (ch : Channel) (t : Thresholds) : Prop :=
  INT_MIN <= min_setpoint ch t /\
  min_setpoint ch t + HYST <= max_setpoint ch t /\
  max_setpoint ch t <= INT_MAX.

(** The setpoints of channel [ch] are separated whenever the sensor task
    runs along [evs]; nothing is asked of the other channels. *)
Fixpoint separated_at_evaluations (ch : Channel) (evs : list Event)
         (s : Sketch) : Prop :=
  match evs with
  | [] => True
  | e :: rest =>
      match e with
      | Sensors _ _ _ => separated_on ch (thr s)
      | _ => True
      end /\ separated_at_evaluations ch rest (handle e s)
  end.

(** Number of times the fogger relay was switched on in an output log. *)
Fixpoint fogger_on_writes (l : list (Z * Pin * Level)) : nat :=
  match l with
  | [] => O
  | (_, RELAY_FOGGER_PIN, LOW) :: rest => S (fogger_on_writes rest)
  | _ :: rest => fogger_on_writes rest
  end.

(** The fogger pulse flag is set although no off-timer is armed and the
    fogger relay is off. *)
Definition pulse_flag_stuck (s : Sketch) : Prop :=
  foggerActive (sch s) = true /\
  foggerState (sch s) = false /\
  foggerOffTicker (sch s) = None.

(** The flag is stuck and the fogger was switched on [n] times so far. *)
Definition stuck_at (n : nat) (s : Sketch) : Prop :=
  pulse_flag_stuck s /\ fogger_on_writes (digital (board s)) = n.

(** Each output pin shows the state variable it belongs to. *)
Definition pins_follow_state (s : Sketch) : Prop :=
  pin_level RELAY_LIGHT_PIN s = Some (active_low (lightState (sch s))) /\
  pin_level RELAY_FOGGER_PIN s = Some (active_low (foggerState (sch s))) /\
  pin_level FAN_INTAKE_PIN s =
    Some (active_low (intakeFanState (fan s))) /\
  pin_level FAN_EXHAUST_PIN s =
    Some (active_low (exhaustFanState (fan s))).

(** The cycle parameters are within the bounds the handlers enforce. *)
Definition config_in_bounds (s : Sketch) : Prop :=
  1 <= userLightOnHours (sch s) <= 11 /\
  5 <= userFoggerSeconds (sch s) <= 180.

(** The fogger is on, flagged active, with no off-timer armed, while the
    scheduler is (and was last known) enabled. *)
Definition fogger_stuck_on (s : Sketch) : Prop :=
  foggerActive (sch s) = true /\
  foggerState (sch s) = true /\
  foggerOffTicker (sch s) = None /\
  lastSchedulerState (sch s) = true.

(** Events that call [enableScheduler(false)] when the scheduler was last
    known enabled: a write of 0 to V0. *)
Definition disables (e : Event) : bool :=
  match e with
  | Write V0 param => param =? 0
  | _ => false
  end.

(** The scheduler globals right after a cycle started at [t0]. *)
Definition cycle_started (se lss : bool) (h fs t0 : Z) : Scheduler :=
  mkScheduler true true true se lss h fs ((12 - h) * 3600)
              (Some (t0 + h * 3600, LightOff))
              (Some (t0 + fs, FoggerOff)).

(** The relay outputs of [n] whole cycles begun at [t0], newest first:
    pulse end, light off, and the start of the next cycle. *)
Fixpoint cycle_outputs (h fs t0 : Z) (n : nat) : list (Z * Pin * Level) :=
  match n with
  | O => []
  | S m =>
      let start := t0 + Z.of_nat m * (12 * 3600) in
      [(start + 12 * 3600, RELAY_FOGGER_PIN, LOW);
       (start + 12 * 3600, RELAY_LIGHT_PIN, LOW);
       (start + h * 3600, RELAY_LIGHT_PIN, HIGH);
       (start + fs, RELAY_FOGGER_PIN, HIGH)] ++ cycle_outputs h fs t0 m
  end.

(** Twelve hours pass, [n] times over. *)
Fixpoint after_periods (n : nat) (s : Sketch) : Sketch :=
  match n with
  | O => s
  | S m =>
      let s' := after_periods m s in
      advance 4 (clock (board s') + 12 * 3600) s'
  end.

(** ** Fan control *)

Section FanControl.

Variables (temp hum co2 : Z) (s : Sketch).

Lemma danger_is_some_flag :
  danger temp hum co2 =
  DangerFlag Temperature temp || DangerFlag Humidity hum
  || DangerFlag GasConcentration co2.
Proof. reflexivity. Qed.

Lemma controlFans_fan :
  fan (controlFans temp hum co2 s) = fan_step (thr s) (fan s) temp hum co2.
Proof. reflexivity. Qed.

Lemma controlFans_thr : thr (controlFans temp hum co2 s) = thr s.
Proof. reflexivity. Qed.

Lemma controlFans_sch : sch (controlFans temp hum co2 s) = sch s.
Proof. reflexivity. Qed.

Lemma fan_step_danger :
  danger temp hum co2 = true ->
  fan_step (thr s) (fan s) temp hum co2 =
  mkFanState false true (tempHigh (fan s)) (tempLow (fan s))
             (humHigh (fan s)) (humLow (fan s))
             (co2High (fan s)) (co2Low (fan s)).
Proof. intros D. unfold fan_step. now rewrite D. Qed.

Lemma fan_step_bands :
  danger temp hum co2 = false ->
  forall ch,
    band_high ch (fan_step (thr s) (fan s) temp hum co2) =
      update_high (value ch temp hum co2) (max_setpoint ch (thr s))
                  (band_high ch (fan s)) /\
    band_low ch (fan_step (thr s) (fan s) temp hum co2) =
      update_low (value ch temp hum co2) (min_setpoint ch (thr s))
                 (band_low ch (fan s)).
Proof.
  intros D ch. unfold fan_step. rewrite D.
  destruct (fan_table _ _ _ _ _ _) as [wi we].
  destruct ch; split; reflexivity.
Qed.

Lemma fan_step_outputs :
  danger temp hum co2 = false ->
  let f := fan_step (thr s) (fan s) temp hum co2 in
  (intakeFanState f, exhaustFanState f) =
  fan_table (tempHigh f) (tempLow f) (humHigh f) (humLow f)
            (co2High f) (co2Low f).
Proof.
  intros D. unfold fan_step. rewrite D.
  destruct (fan_table _ _ _ _ _ _) as [wi we] eqn:E. cbn. now rewrite E.
Qed.

End FanControl.

(** A reading that raises no danger flag lies strictly inside the danger
    limits of its channel. *)
Lemma no_danger_bounds temp hum co2 ch :
  danger temp hum co2 = false ->
  danger_low ch < value ch temp hum co2 < danger_high ch.
Proof.
  unfold danger. intros D.
  repeat (apply orb_false_elim in D; destruct D as [D ?]).
  repeat match goal with
         | H : (_ || _) = false |- _ =>
             apply orb_false_elim in H; destruct H
         end.
  destruct ch; cbn; lia.
Qed.

Lemma int_wrap_small z : INT_MIN <= z <= INT_MAX -> int_wrap z = z.
Proof.
  unfold INT_MIN, INT_MAX, int_wrap. intros H.
  rewrite Z.mod_small; lia.
Qed.

(** C2. Whenever the reading of some channel is at or beyond one of its
    danger limits, one call of [controlFans] ends with exhaust on and
    intake off (in the statics and on the two fan pins), whatever the
    sticky flags were, and the six sticky band flags are those from before
    the call. *)
Theorem danger_forces_venting_and_keeps_bands :
  forall (ch : Channel) (temp hum co2 : Z) (s : Sketch),
    DangerFlag ch (value ch temp hum co2) = true ->
    let s' := controlFans temp hum co2 s in
    exhaustFanState (fan s') = true /\
    intakeFanState (fan s') = false /\
    pin_level FAN_EXHAUST_PIN s' = Some LOW /\
    pin_level FAN_INTAKE_PIN s' = Some HIGH /\
    bands (fan s') = bands (fan s).
Proof.
  intros ch temp hum co2 s F s'.
  assert (D : danger temp hum co2 = true).
  { rewrite danger_is_some_flag.
    destruct ch; cbn [value] in F; rewrite F, ?orb_true_r; reflexivity. }
  subst s'. unfold pin_level, controlFans.
  rewrite (fan_step_danger _ _ _ _ D). cbn. repeat split.
Qed.

Lemma danger_forces_venting_and_keeps_bands_witness :
  let s := controlFans 32 60 500 initial in
  let s' := controlFans 25 70 2100 s in
  bands (fan s) = (true, false, false, true, false, false) /\
  exhaustFanState (fan s') = true /\
  intakeFanState (fan s') = false /\
  bands (fan s') = bands (fan s).
Proof.
  pose proof (danger_forces_venting_and_keeps_bands
                GasConcentration 25 70 2100
                (controlFans 32 60 500 initial) eq_refl) as H.
  cbv zeta in H. destruct H as (E & I & _ & _ & B).
  split; [reflexivity | split; [exact E | split; [exact I | exact B]]].
Defined.

(** C3. Every channel's sticky band follows the hysteresis rule.  In an
    evaluation that reaches the band update (no danger flag), High is
    entered exactly when [value >= max_setpoint] and Low exactly when
    [value <= min_setpoint].  In every evaluation, High is left only when
    [value <= max_setpoint - margin] and Low only when
    [value >= min_setpoint + margin]; so a value strictly inside
    [(max_setpoint - margin, max_setpoint)] leaves the High flag as it
    was, in particular set once it is set. *)
Theorem hysteresis_rule :
  forall (ch : Channel) (temp hum co2 : Z) (s : Sketch),
    let v := value ch temp hum co2 in
    let mx := max_setpoint ch (thr s) in
    let mn := min_setpoint ch (thr s) in
    let s' := controlFans temp hum co2 s in
    (danger temp hum co2 = false ->
     (band_high ch (fan s) = false ->
      (band_high ch (fan s') = true <-> v >= mx)) /\
     (band_low ch (fan s) = false ->
      (band_low ch (fan s') = true <-> v <= mn))) /\
    (band_high ch (fan s) = true -> band_high ch (fan s') = false ->
     v <= mx - HYST) /\
    (band_low ch (fan s) = true -> band_low ch (fan s') = false ->
     v >= mn + HYST) /\
    (mx - HYST < v < mx -> band_high ch (fan s') = band_high ch (fan s)) /\
    (mn < v < mn + HYST -> band_low ch (fan s') = band_low ch (fan s)).
Proof.
  intros ch temp hum co2 s v mx mn s'.
  subst s'. rewrite controlFans_fan.
  destruct (danger temp hum co2) eqn:D.
  - (* danger: the statics keep their band flags *)
    rewrite (fan_step_danger _ _ _ _ D).
    split; [discriminate|].
    repeat split; destruct ch; cbn; congruence.
  - pose proof (no_danger_bounds temp hum co2 ch D) as B.
    destruct (fan_step_bands temp hum co2 s D ch) as [EH EL].
    fold v mx mn in EH, EL. rewrite EH, EL. fold v in B.
    assert (Wsub : INT_MIN <= mx - HYST <= INT_MAX ->
                   int_wrap (mx - HYST) = mx - HYST)
      by apply int_wrap_small.
    assert (Wadd : INT_MIN <= mn + HYST <= INT_MAX ->
                   int_wrap (mn + HYST) = mn + HYST)
      by apply int_wrap_small.
    assert (R : -2000 <= danger_low ch /\ danger_high ch <= 2000)
      by (destruct ch; split; now vm_compute).
    unfold update_high, update_low, HYST, INT_MIN, INT_MAX in *.
    repeat split; intros;
      repeat match goal with
             | |- context [?a >=? ?b] => destruct (Z.geb_spec a b)
             | |- context [?a <=? ?b] => destruct (Z.leb_spec a b)
             | H : context [?a >=? ?b] |- _ => destruct (Z.geb_spec a b)
             | H : context [?a <=? ?b] |- _ => destruct (Z.leb_spec a b)
             end;
      try congruence; try lia; try (split; intros; (congruence || lia)).
Qed.

Lemma hysteresis_rule_witness :
  let s := controlFans 32 70 500 initial in
  tempHigh (fan s) = true /\
  tempHigh (fan (controlFans 29 70 500 s)) = true /\
  tempHigh (fan (controlFans 27 70 500 (controlFans 29 70 500 s))) = false.
Proof.
  cbv zeta.
  destruct (hysteresis_rule Temperature 32 70 500 initial)
    as (Enter & _).
  destruct (Enter eq_refl) as (EnterHigh & _).
  pose proof (proj2 (EnterHigh eq_refl) ltac:(cbn; lia)) as H32.
  destruct (hysteresis_rule Temperature 29 70 500
                            (controlFans 32 70 500 initial))
    as (_ & _ & _ & Dead & _).
  pose proof (Dead ltac:(cbn; lia)) as H29.
  cbn [band_high] in H32, H29.
  split; [exact H32 | split; [rewrite H29; exact H32 | reflexivity]].
Defined.

(** C1, as worded, fails: with temperature High and humidity Low the
    temperature rule asks for exhaust, the humidity-Low rule then assigns
    [wantExhaust = false], and the result differs from the OR of the
    contributions. *)
Lemma humidity_low_resets_exhaust :
  let s := controlFans 32 60 500 initial in
  danger 32 60 500 = false /\
  bands (fan s) = (true, false, false, true, false, false) /\
  (intakeFanState (fan s), exhaustFanState (fan s)) = (true, false) /\
  or_combined (fan s) = (true, true) /\
  (intakeFanState (fan s), exhaustFanState (fan s)) <> or_combined (fan s).
Proof. cbv zeta. repeat split. discriminate. Qed.

(** C1, amended.  After an evaluation that reaches the fan table, intake
    is the OR of the per-channel contributions, and exhaust is
    [co2High || humHigh || (tempHigh && !humLow)]: the humidity-Low rule
    (taken when humidity is not High) resets the exhaust request of the
    temperature rule, and only that; whenever that rule is not taken both
    outputs are the OR of the contributions. *)
Theorem fan_outputs_combination :
  forall (temp hum co2 : Z) (s : Sketch),
    danger temp hum co2 = false ->
    let f := fan (controlFans temp hum co2 s) in
    intakeFanState f = fst (or_combined f) /\
    exhaustFanState f =
      co2High f || humHigh f || (tempHigh f && negb (humLow f)) /\
    (humLow f = false \/ humHigh f = true ->
     (intakeFanState f, exhaustFanState f) = or_combined f).
Proof.
  intros temp hum co2 s D f. subst f. rewrite controlFans_fan.
  pose proof (fan_step_outputs temp hum co2 s D) as O. cbv zeta in O.
  set (f := fan_step (thr s) (fan s) temp hum co2) in *.
  pose proof (f_equal fst O) as OI. pose proof (f_equal snd O) as OE.
  cbn [fst snd] in OI, OE. rewrite OI, OE. unfold or_combined.
  destruct (tempHigh f), (tempLow f), (humHigh f), (humLow f),
    (co2High f), (co2Low f); cbn;
    (repeat split; try reflexivity; intros [H | H]; discriminate H).
Qed.

Lemma fan_outputs_combination_witness :
  let f := fan (controlFans 32 80 1500 initial) in
  bands f = (true, false, true, false, true, false) /\
  (intakeFanState f, exhaustFanState f) = or_combined f.
Proof.
  cbv zeta. split; [reflexivity|].
  apply (fan_outputs_combination 32 80 1500 initial eq_refl).
  left. reflexivity.
Defined.

(** ** The scheduler and the handlers leave the fan statics alone *)

Ltac by_cases :=
  repeat match goal with
         | |- context [if ?b then _ else _] => destruct b
         | |- context [match ?x with _ => _ end] => destruct x
         end;
  try reflexivity.

Lemma scheduleFoggerNow_fan s : fan (scheduleFoggerNow s) = fan s.
Proof. unfold scheduleFoggerNow. by_cases. Qed.

Lemma with_sch_fan f s : fan (with_sch f s) = fan s.
Proof. reflexivity. Qed.

Lemma scheduleGrowLight_fan s : fan (scheduleGrowLight s) = fan s.
Proof.
  unfold scheduleGrowLight. cbv zeta.
  rewrite !with_sch_fan, scheduleFoggerNow_fan. reflexivity.
Qed.

Lemma enableScheduler_fan b s : fan (enableScheduler b s) = fan s.
Proof.
  assert (V : forall p v x, fan (virtualWrite p v x) = fan x)
    by reflexivity.
  unfold enableScheduler. cbv zeta.
  match goal with
  | |- fan (if ?c then _ else ?x) = _ =>
      transitivity (fan x); [destruct c; [apply V | reflexivity]|]
  end.
  destruct b; [now rewrite scheduleGrowLight_fan | reflexivity].
Qed.

Lemma enableScheduler_thr b s : thr (enableScheduler b s) = thr s.
Proof.
  unfold enableScheduler, scheduleGrowLight, scheduleFoggerNow.
  cbv zeta. by_cases.
Qed.

Lemma fire_fan i s : fan (fire i s) = fan s.
Proof.
  destruct i; cbn [fire].
  - unfold fire_light. destruct (lightTicker (sch s)) as [[d cb]|]; auto.
    destruct cb; cbn [run_light_callback].
    + now rewrite scheduleFoggerNow_fan.
    + reflexivity.
    + now rewrite scheduleGrowLight_fan.
  - unfold fire_fogger.
    destruct (foggerOffTicker (sch s)) as [[d []]|]; reflexivity.
Qed.

Lemma advance_fan fuel t s : fan (advance fuel t s) = fan s.
Proof.
  revert s. induction fuel as [|n IH]; intros s; cbn [advance]; auto.
  destruct (next_due t s); [|reflexivity].
  now rewrite IH, fire_fan.
Qed.

Lemma blynk_write_fan p v s : fan (blynk_write p v s) = fan s.
Proof.
  destruct p; cbn [blynk_write]; try reflexivity.
  - apply enableScheduler_fan.
  - unfold write_V7. by_cases.
  - unfold write_V8. by_cases.
Qed.

Lemma readAndSendSensors_fan t h r s :
  fan (readAndSendSensors t h r s) =
  if negb (isnan t) && negb (isnan h)
  then fan_step (thr s) (fan s) (int_of_round t) (int_of_round h)
                (map_range r 0 4095 400 2000)
  else fan s.
Proof.
  unfold readAndSendSensors. cbv zeta.
  destruct (negb (isnan t) && negb (isnan h)); [|reflexivity].
  destruct (connected _); [|reflexivity].
  unfold send_if_changed. by_cases.
Qed.

(** One evaluation keeps High and Low of a channel apart when the
    setpoints of that channel are. *)
Lemma fan_step_exclusive ch t f temp hum co2 :
  separated_on ch t -> exclusive_on ch f ->
  exclusive_on ch (fan_step t f temp hum co2).
Proof.
  unfold separated_on, exclusive_on. intros S X.
  destruct (danger temp hum co2) eqn:D.
  - unfold fan_step. rewrite D. destruct ch; exact X.
  - pose proof (no_danger_bounds temp hum co2 ch D) as B.
    assert (E : band_high ch (fan_step t f temp hum co2) =
                update_high (value ch temp hum co2) (max_setpoint ch t)
                            (band_high ch f) /\
                band_low ch (fan_step t f temp hum co2) =
                update_low (value ch temp hum co2) (min_setpoint ch t)
                           (band_low ch f)).
    { unfold fan_step. rewrite D.
      destruct (fan_table _ _ _ _ _ _). destruct ch; split; reflexivity. }
    destruct E as [EH EL]. rewrite EH, EL.
    unfold update_high, update_low.
    rewrite !int_wrap_small by (unfold HYST, INT_MIN, INT_MAX in *; lia).
    unfold HYST in *.
    repeat match goal with
           | |- context [?a >=? ?b] => destruct (Z.geb_spec a b)
           | |- context [?a <=? ?b] => destruct (Z.leb_spec a b)
           end; try reflexivity; try lia; auto using andb_false_r.
Qed.

Lemma handle_exclusive ch e s :
  match e with Sensors _ _ _ => separated_on ch (thr s) | _ => True end ->
  exclusive_on ch (fan s) -> exclusive_on ch (fan (handle e s)).
Proof.
  intros S X. destruct e; cbn [handle].
  - now rewrite blynk_write_fan.
  - unfold blynk_connected. by_cases; now rewrite enableScheduler_fan.
  - exact X.
  - rewrite readAndSendSensors_fan.
    destruct (negb _ && negb _); auto using fan_step_exclusive.
  - now rewrite fire_fan.
  - now rewrite advance_fan.
Qed.

(** C9, as worded, fails: threshold writes are applied unchecked, and after
    [minTemp] is written above [maxTemp] one evaluation sets both the High
    and the Low flag of the temperature channel. *)
Lemma unchecked_thresholds_break_exclusion :
  let s := run [Write V4 35; Sensors (Fin (32 # 1)) (Fin (70 # 1)) 1000]
               initial in
  exclusive (fan initial) /\
  tempHigh (fan s) = true /\ tempLow (fan s) = true /\
  ~ exclusive_on Temperature (fan s) /\
  ~ exclusive (fan s).
Proof.
  cbv zeta. split; [intros []; reflexivity|].
  split; [reflexivity|]. split; [reflexivity|].
  split; [intros X; discriminate X|].
  intros X. specialize (X Temperature). discriminate X.
Qed.

(** C9, amended.  For every channel, along every sequence of events
    (threshold and other Blynk writes, reconnects, sensor tasks, timer
    expiries), starting from High and Low of that channel not both set: if
    at each run of the sensor task the setpoints of that channel are
    [int]s with [min_setpoint + margin <= max_setpoint], then no
    evaluation leaves the High and the Low flag of that channel both set,
    whatever the setpoints and flags of the other channels are. *)
Theorem bands_exclusive_when_setpoints_separated :
  forall (ch : Channel) (evs : list Event) (s : Sketch),
    exclusive_on ch (fan s) ->
    separated_at_evaluations ch evs s ->
    exclusive_on ch (fan (run evs s)).
Proof.
  intros ch. induction evs as [|e evs IH]; intros s X S.
  - exact X.
  - destruct S as [Se Srest]. cbn [run fold_left].
    apply IH; [|exact Srest].
    now apply handle_exclusive.
Qed.

Lemma bands_exclusive_when_setpoints_separated_witness :
  let s := run [Write V6 80; Sensors (Fin (32 # 1)) (Fin (78 # 1)) 1000;
                Write V0 1; Sensors (Fin (29 # 1)) (Fin (78 # 1)) 3000]
               initial in
  ~ separated_on Humidity (thr s) /\
  humHigh (fan s) && humLow (fan s) = true /\
  exclusive_on Temperature (fan s).
Proof.
  cbv zeta. split; [|split].
  - intros (_ & H & _). vm_compute in H. apply H. reflexivity.
  - reflexivity.
  - apply bands_exclusive_when_setpoints_separated.
    + reflexivity.
    + cbn [separated_at_evaluations].
      split; [exact I|]. split.
      { vm_compute. repeat split; discriminate. }
      split; [exact I|]. split; [|exact I].
      vm_compute. repeat split; discriminate.
Defined.

(** ** Duty-cycle scheduler *)

(** C6. [enableScheduler(false)], from any state of the sketch whatever
    (light phase on or off, fogger pulse active or not, any timers armed),
    leaves the light and the fogger off, in the globals and on the relay
    pins, and leaves neither ticker armed, so that nothing is due at any
    later time. *)
Theorem disable_switches_off_and_disarms :
  forall s : Sketch,
    let s' := enableScheduler false s in
    lightState (sch s') = false /\
    foggerState (sch s') = false /\
    pin_level RELAY_LIGHT_PIN s' = Some HIGH /\
    pin_level RELAY_FOGGER_PIN s' = Some HIGH /\
    lightTicker (sch s') = None /\
    foggerOffTicker (sch s') = None /\
    schedulerEnabled (sch s') = false /\
    (forall t, next_due t s' = None).
Proof.
  intros s s'. subst s'. unfold enableScheduler, pin_level. cbv zeta.
  destruct (connected _); cbn; repeat split.
Qed.

(** *** A pulse flag left set by [disable] *)

Lemma scheduleFoggerNow_when_active s :
  foggerActive (sch s) = true -> scheduleFoggerNow s = s.
Proof.
  intros A. unfold scheduleFoggerNow. rewrite A.
  now destruct (lightState (sch s)).
Qed.

Lemma setLightState_stuck b n s :
  stuck_at n s -> stuck_at n (setLightState b s).
Proof. intros [(A & F & T) C]. repeat split; assumption. Qed.

Lemma scheduleGrowLight_stuck n s :
  stuck_at n s -> stuck_at n (scheduleGrowLight s).
Proof.
  intros [(A & F & T) C]. unfold scheduleGrowLight. cbv zeta.
  rewrite scheduleFoggerNow_when_active by exact A.
  repeat split; assumption.
Qed.

Lemma lightOffCallback_stuck n s :
  stuck_at n s -> stuck_at n (lightOffCallback s).
Proof. intros [(A & F & T) C]. repeat split; assumption. Qed.

Lemma virtualWrite_stuck p v n s :
  stuck_at n s -> stuck_at n (virtualWrite p v s).
Proof. intros [(A & F & T) C]. repeat split; assumption. Qed.

Lemma enableScheduler_stuck b n s :
  stuck_at n s -> stuck_at n (enableScheduler b s).
Proof.
  intros [(A & F & T) C]. unfold enableScheduler. cbv zeta.
  assert (H : stuck_at n
                (if b
                 then scheduleGrowLight
                        (with_sch
                           (fun c => set_foggerOffTicker
                                       (detach (foggerOffTicker c)) c)
                           (with_sch
                              (fun c => set_lightTicker
                                          (detach (lightTicker c)) c)
                              (with_sch (set_enabled b) s)))
                 else setFoggerState false
                        (setLightState false
                           (with_sch
                              (fun c => set_foggerOffTicker
                                          (detach (foggerOffTicker c)) c)
                              (with_sch
                                 (fun c => set_lightTicker
                                             (detach (lightTicker c)) c)
                                 (with_sch (set_enabled b) s)))))).
  { destruct b.
    - apply scheduleGrowLight_stuck. repeat split; assumption.
    - repeat split; assumption. }
  destruct (connected _); [apply virtualWrite_stuck|]; exact H.
Qed.

Lemma fire_stuck i n s : stuck_at n s -> stuck_at n (fire i s).
Proof.
  intros [(A & F & T) C]. destruct i; cbn [fire].
  - unfold fire_light. destruct (lightTicker (sch s)) as [[d cb]|].
    + destruct cb; cbn [run_light_callback].
      * rewrite scheduleFoggerNow_when_active by exact A.
        repeat split; assumption.
      * apply lightOffCallback_stuck. repeat split; assumption.
      * apply scheduleGrowLight_stuck. repeat split; assumption.
    + repeat split; assumption.
  - unfold fire_fogger. rewrite T. repeat split; assumption.
Qed.

Lemma advance_stuck fuel t n s :
  stuck_at n s -> stuck_at n (advance fuel t s).
Proof.
  revert s. induction fuel as [|k IH]; intros s H; cbn [advance]; auto.
  destruct (next_due t s).
  - apply IH, fire_stuck, H.
  - destruct H as [(A & F & T) C]. repeat split; assumption.
Qed.

Lemma handle_stuck e n s : stuck_at n s -> stuck_at n (handle e s).
Proof.
  intros H. destruct e; cbn [handle].
  - destruct p; cbn [blynk_write];
      try exact H; try apply enableScheduler_stuck, H;
      destruct H as [(A & F & T) C].
    all: try (repeat split; assumption).
    + unfold write_V7. by_cases; repeat split; assumption.
    + unfold write_V8. by_cases; repeat split; assumption.
  - unfold blynk_connected. cbv zeta.
    assert (H' : stuck_at n (set_connected true s))
      by (destruct H as [(A & F & T) C]; repeat split; assumption).
    destruct (lastSchedulerState _); apply enableScheduler_stuck, H'.
  - destruct H as [(A & F & T) C]. repeat split; assumption.
  - destruct H as [(A & F & T) C].
    unfold readAndSendSensors, send_if_changed. cbv zeta.
    by_cases; repeat split; assumption.
  - apply fire_stuck, H.
  - apply advance_stuck, H.
Qed.

Lemma run_stuck evs n s : stuck_at n s -> stuck_at n (run evs s).
Proof.
  revert s. induction evs as [|e evs IH]; intros s H; [exact H|].
  apply IH, handle_stuck, H.
Qed.

(** C10. When the scheduler is disabled while a fogger pulse is active,
    [foggerActive] stays true although the fogger is switched off and its
    off-timer is disarmed.  From then on, along every sequence of events
    (enabling again, timer expiries, writes, sensor tasks, reconnects) the
    flag stays set, every call of [scheduleFoggerNow] changes nothing, and
    the fogger relay is never switched on again. *)
Theorem disable_during_pulse_blocks_fogger :
  forall s : Sketch,
    foggerActive (sch s) = true ->
    let s1 := enableScheduler false s in
    pulse_flag_stuck s1 /\
    forall evs : list Event,
      let s2 := run evs s1 in
      pulse_flag_stuck s2 /\
      scheduleFoggerNow s2 = s2 /\
      fogger_on_writes (digital (board s2)) =
      fogger_on_writes (digital (board s1)).
Proof.
  intros s A s1.
  assert (S1 : pulse_flag_stuck s1).
  { subst s1. unfold enableScheduler. cbv zeta.
    destruct (connected _); repeat split; exact A. }
  split; [exact S1|]. intros evs s2.
  destruct (run_stuck evs _ s1 (conj S1 eq_refl)) as [S2 C].
  fold s2 in S2, C.
  split; [exact S2|]. split; [|exact C].
  apply scheduleFoggerNow_when_active, S2.
Qed.

Lemma disable_during_pulse_blocks_fogger_witness :
  let s := run [Write V0 1] initial in
  let s1 := enableScheduler false s in
  let s2 := run [Write V0 1; Elapse 10 43200] s1 in
  foggerActive (sch s) = true /\
  pulse_flag_stuck s2 /\
  fogger_on_writes (digital (board s2)) =
  fogger_on_writes (digital (board s1)).
Proof.
  intros s s1 s2. split; [vm_compute; reflexivity|].
  destruct (disable_during_pulse_blocks_fogger s) as [_ H];
    [vm_compute; reflexivity|].
  destruct (H [Write V0 1; Elapse 10 43200]) as (S & _ & C).
  split; [exact S | exact C].
Defined.

(** *** One light cycle, timer by timer *)

(** Unfolds the scheduler code on a state given field by field; integer
    arithmetic is left alone. *)
Ltac sketch_eval :=
  cbv beta iota zeta delta
    [enableScheduler scheduleGrowLight scheduleFoggerNow setLightState
     setFoggerState foggerOffCallback lightOffCallback digitalWrite
     virtualWrite with_sch with_board with_fan with_thr with_sent
     set_lightState set_foggerState set_foggerActive set_enabled
     set_userLightOnHours set_userFoggerSeconds set_nextLightOffSec
     set_lightTicker set_foggerOffTicker set_clock set_connected
     fire fire_light fire_fogger run_light_callback next_due once detach
     active_low thr fan sch sent board clock connected digital virtual
     lightState foggerState foggerActive schedulerEnabled
     lastSchedulerState userLightOnHours userFoggerSeconds
     nextLightOffSec lightTicker foggerOffTicker negb].

Lemma ulong_wrap_small z : 0 <= z < 2 ^ 32 -> ulong_wrap z = z.
Proof. intros H. unfold ulong_wrap. now apply Z.mod_small. Qed.

Lemma advance_fire n t s i :
  next_due t s = Some i -> advance (S n) t s = advance n t (fire i s).
Proof. intros E. cbn [advance]. now rewrite E. Qed.

Lemma advance_idle n t s :
  next_due t s = None ->
  advance (S n) t s = set_clock (Z.max t (clock (board s))) s.
Proof. intros E. cbn [advance]. now rewrite E. Qed.

Lemma leb_true a b : a <= b -> (a <=? b) = true.
Proof. apply Z.leb_le. Qed.

Lemma leb_false a b : b < a -> (a <=? b) = false.
Proof. apply Z.leb_gt. Qed.

(** From the state [scheduleGrowLight] leaves at time [t0] (light on,
    pulse running, light-off timer and pulse-off timer armed), twelve
    hours later: the pulse ended after [fs] seconds, the light went off
    after [h] hours, and the next cycle started on the hour. *)
Lemma cycle_from_armed h fs t0 th f se lss l conn dig virt k :
  1 <= h <= 11 -> 5 <= fs <= 180 ->
  advance (4 + k) (t0 + 12 * 3600)
    (mkSketch th f
       (mkScheduler true true true se lss h fs ((12 - h) * 3600)
                    (Some (t0 + h * 3600, LightOff))
                    (Some (t0 + fs, FoggerOff)))
       l (mkBoard t0 conn dig virt)) =
  mkSketch th f
    (mkScheduler true true true se lss h fs ((12 - h) * 3600)
                 (Some (t0 + 12 * 3600 + h * 3600, LightOff))
                 (Some (t0 + 12 * 3600 + fs, FoggerOff)))
    l (mkBoard (t0 + 12 * 3600) conn
               ([(t0 + 12 * 3600, RELAY_FOGGER_PIN, LOW);
                 (t0 + 12 * 3600, RELAY_LIGHT_PIN, LOW);
                 (t0 + h * 3600, RELAY_LIGHT_PIN, HIGH);
                 (t0 + fs, RELAY_FOGGER_PIN, HIGH)] ++ dig)
               virt).
Proof.
  intros Hh Hfs.
  assert (W1 : ulong_wrap (h * 3600) = h * 3600)
    by (apply ulong_wrap_small; lia).
  assert (W2 : ulong_wrap ((12 - h) * 3600) = (12 - h) * 3600)
    by (apply ulong_wrap_small; lia).
  change (4 + k)%nat with (S (S (S (S k)))).
  rewrite (advance_fire _ _ _ FoggerT).
  2:{ sketch_eval. rewrite leb_false by lia. now rewrite leb_true by lia. }
  sketch_eval.
  rewrite (advance_fire _ _ _ LightT).
  2:{ sketch_eval. now rewrite leb_true by lia. }
  sketch_eval.
  rewrite (advance_fire _ _ _ LightT).
  2:{ sketch_eval. replace (Z.max (t0 + fs) t0) with (t0 + fs) by lia.
      replace (Z.max (t0 + h * 3600) (t0 + fs)) with (t0 + h * 3600) by lia.
      now rewrite leb_true by lia. }
  sketch_eval. rewrite W1, W2.
  replace (Z.max (t0 + fs) t0) with (t0 + fs) by lia.
  replace (Z.max (t0 + h * 3600) (t0 + fs)) with (t0 + h * 3600) by lia.
  replace (Z.max (t0 + h * 3600 + (12 - h) * 3600) (t0 + h * 3600))
    with (t0 + 12 * 3600) by lia.
  rewrite advance_idle.
  2:{ sketch_eval. rewrite leb_false by lia. now rewrite leb_false by lia. }
  sketch_eval. rewrite Z.max_id. reflexivity.
Qed.

(** What [enableScheduler(true)] leaves when no pulse is flagged. *)
Lemma enable_arms h fs t0 th f ls fst se lss nl lt ft l conn dig virt :
  1 <= h <= 11 ->
  enableScheduler true
    (mkSketch th f (mkScheduler ls fst false se lss h fs nl lt ft) l
              (mkBoard t0 conn dig virt)) =
  mkSketch th f
    (mkScheduler true true true true true h fs ((12 - h) * 3600)
                 (Some (t0 + h * 3600, LightOff))
                 (Some (t0 + fs, FoggerOff)))
    l (mkBoard t0 conn
               ((t0, RELAY_FOGGER_PIN, LOW) :: (t0, RELAY_LIGHT_PIN, LOW)
                :: dig)
               (if conn then (t0, V0, 1) :: virt else virt)).
Proof.
  intros Hh.
  assert (W1 : ulong_wrap (h * 3600) = h * 3600)
    by (apply ulong_wrap_small; lia).
  assert (W2 : ulong_wrap ((12 - h) * 3600) = (12 - h) * 3600)
    by (apply ulong_wrap_small; lia).
  sketch_eval. rewrite W1, W2. destruct conn; reflexivity.
Qed.

(** C4, on the code.  With [h] light hours ([1 <= h <= 11]) and a pulse of
    [fs] seconds ([5 <= fs <= 180]), enabling the scheduler at time [t0]
    with no pulse flagged switches light and fogger on at [t0]; the only
    timer left on [lightTicker] is the light-off timer for [t0 + h*3600]
    (arming it replaced the halfway timer armed just before on the same
    ticker).  Letting twelve hours pass, the outputs made are exactly:
    fogger off at [t0 + fs], light off at [t0 + h*3600], light and fogger
    on at [t0 + 12*3600].  The fogger is switched on twice, not three
    times, and nothing is output at [t0 + h*3600/2]. *)
Theorem halfway_timer_is_replaced :
  forall (s : Sketch) (k : nat),
    let h := userLightOnHours (sch s) in
    let fs := userFoggerSeconds (sch s) in
    let t0 := clock (board s) in
    1 <= h <= 11 -> 5 <= fs <= 180 -> foggerActive (sch s) = false ->
    let s1 := enableScheduler true s in
    let s2 := advance (4 + k) (t0 + 12 * 3600) s1 in
    lightTicker (sch s1) = Some (t0 + h * 3600, LightOff) /\
    foggerOffTicker (sch s1) = Some (t0 + fs, FoggerOff) /\
    clock (board s2) = t0 + 12 * 3600 /\
    digital (board s2) =
      [(t0 + 12 * 3600, RELAY_FOGGER_PIN, LOW);
       (t0 + 12 * 3600, RELAY_LIGHT_PIN, LOW);
       (t0 + h * 3600, RELAY_LIGHT_PIN, HIGH);
       (t0 + fs, RELAY_FOGGER_PIN, HIGH);
       (t0, RELAY_FOGGER_PIN, LOW);
       (t0, RELAY_LIGHT_PIN, LOW)] ++ digital (board s) /\
    fogger_on_writes (digital (board s2)) =
      (2 + fogger_on_writes (digital (board s)))%nat /\
    (forall p l,
        In (t0 + h * 3600 / 2, p, l) (digital (board s2)) ->
        In (t0 + h * 3600 / 2, p, l) (digital (board s))).
Proof.
  intros [th f [ls fst fa se lss h fs nl lt ft] l [t0 conn dig virt]] k.
  cbn [sch board userLightOnHours userFoggerSeconds clock foggerActive
       digital].
  intros Hh Hfs Hfa. subst fa. cbv zeta.
  rewrite enable_arms by exact Hh.
  rewrite cycle_from_armed by assumption.
  cbn [sch board lightTicker foggerOffTicker clock digital app].
  split; [reflexivity|]. split; [reflexivity|]. split; [reflexivity|].
  split; [reflexivity|]. split; [reflexivity|].
  intros p lv HIn.
  assert (Half : h * 3600 / 2 = h * 1800).
  { replace (h * 3600) with (h * 1800 * 2) by lia. apply Z.div_mul. lia. }
  rewrite Half in *.
  repeat (destruct HIn as [E | HIn];
          [injection E as Et _ _; exfalso; lia|]).
  exact HIn.
Qed.

Lemma halfway_timer_is_replaced_witness :
  let s1 := enableScheduler true initial in
  let s2 := advance 4 43200 s1 in
  lightTicker (sch s1) = Some (21600, LightOff) /\
  digital (board s2) =
    [(43200, RELAY_FOGGER_PIN, LOW); (43200, RELAY_LIGHT_PIN, LOW);
     (21600, RELAY_LIGHT_PIN, HIGH); (5, RELAY_FOGGER_PIN, HIGH);
     (0, RELAY_FOGGER_PIN, LOW); (0, RELAY_LIGHT_PIN, LOW)]
    ++ digital (board initial) /\
  ~ In (10800, RELAY_FOGGER_PIN, LOW) (digital (board s2)).
Proof.
  destruct (halfway_timer_is_replaced initial 0)
    as (L & _ & _ & D & _ & N);
    [vm_compute; split; discriminate | vm_compute; split; discriminate
     | reflexivity |].
  split; [exact L|]. split; [exact D|].
  intros HIn. apply (N RELAY_FOGGER_PIN LOW) in HIn.
  vm_compute in HIn.
  repeat (destruct HIn as [E | HIn]; [discriminate E|]). exact HIn.
Defined.

(** C8, on the code.  A write of the light hours (V7) is applied exactly
    when the scheduler is disabled and the value is within 1..11, a write
    of the fogger seconds (V8) exactly when the scheduler is disabled and
    the value is within 5..180.  Every other write changes no global; the
    retained value is sent back, but on the pin below the one written:
    V6 for a write of V7, and V7 for a write of V8. *)
Theorem cycle_config_writes :
  forall (s : Sketch) (param : Z),
    (schedulerEnabled (sch s) = false /\ 1 <= param <= 11 ->
     blynk_write V7 param s = with_sch (set_userLightOnHours param) s) /\
    (~ (schedulerEnabled (sch s) = false /\ 1 <= param <= 11) ->
     blynk_write V7 param s = virtualWrite V6 (userLightOnHours (sch s)) s) /\
    (schedulerEnabled (sch s) = false /\ 5 <= param <= 180 ->
     blynk_write V8 param s = with_sch (set_userFoggerSeconds param) s) /\
    (~ (schedulerEnabled (sch s) = false /\ 5 <= param <= 180) ->
     blynk_write V8 param s =
     virtualWrite V7 (userFoggerSeconds (sch s)) s).
Proof.
  intros s param. cbn [blynk_write]. unfold write_V7, write_V8. cbv zeta.
  destruct (schedulerEnabled (sch s)); cbn [negb].
  - repeat split; intros H; try reflexivity;
      destruct H as [H _]; discriminate H.
  - destruct (Z.gtb_spec param 0), (Z.ltb_spec param 12),
      (Z.geb_spec param 5), (Z.leb_spec param 180); cbn [andb];
      repeat split; intros X; try reflexivity;
      try (exfalso; lia); try (exfalso; apply X; split; [reflexivity | lia]).
Qed.

Lemma cycle_config_writes_witness :
  let s := run [Connected; Write V0 1] initial in
  blynk_write V7 8 initial = with_sch (set_userLightOnHours 8) initial /\
  virtual (board (blynk_write V7 8 s)) = (0, V6, 6) :: virtual (board s) /\
  virtual (board (blynk_write V8 200 initial)) = [(0, V7, 5)].
Proof.
  cbv zeta.
  destruct (cycle_config_writes initial 8) as (A7 & _).
  destruct (cycle_config_writes (run [Connected; Write V0 1] initial) 8)
    as (_ & R7 & _).
  destruct (cycle_config_writes initial 200) as (_ & _ & _ & R8).
  split; [apply A7; split; [reflexivity | lia]|].
  split.
  - rewrite R7; [reflexivity|]. intros [E _]. vm_compute in E.
    discriminate E.
  - rewrite R8; [reflexivity|]. intros [_ E]. lia.
Defined.

(** ** Unavailable readings *)

(** C5, on the code.  Air: when the DHT delivers NaN for temperature or
    humidity, the sensor task changes nothing at all (no fan evaluation,
    no output).  Water: a disconnected DS18B20 is handled exactly as a
    reading of -99 degrees, fed to the cooling logic as a number; with
    cooling on and the default thresholds this switches the cooling
    off. *)
Theorem unavailable_reading_handling :
  (forall (temperature humidity : Float) (mq135_raw : Z) (s : Sketch),
      isnan temperature || isnan humidity = true ->
      readAndSendSensors temperature humidity mq135_raw s = s) /\
  (forall s : Water.Sketch,
      Water.handleActuators Water.Disconnected s =
      Water.handleActuators (Water.Celsius (inject_Z (-99))) s) /\
  (let s := Water.handleActuators (Water.Celsius (inject_Z 30))
                                  Water.initial in
   let s' := Water.handleActuators Water.Disconnected s in
   Water.coolingState s = true /\
   Water.relays s = (LOW, LOW, LOW) /\
   Water.coolingState s' = false /\
   Water.relays s' = (HIGH, HIGH, HIGH)).
Proof.
  split; [|split].
  - intros t h r s N. unfold readAndSendSensors. cbv zeta.
    destruct (isnan t), (isnan h); try discriminate N; reflexivity.
  - intros s. reflexivity.
  - cbv zeta. repeat split.
Qed.

Lemma unavailable_reading_handling_witness :
  readAndSendSensors NaN (Fin (70 # 1)) 1000 (controlFans 32 60 500 initial)
  = controlFans 32 60 500 initial.
Proof.
  apply (proj1 unavailable_reading_handling). reflexivity.
Defined.

(** ** Cooling thermostat *)

(** C7, as worded, fails: with the thresholds of the sketch
    ([OPTIMAL_TEMP_MAX = 28], [OPTIMAL_TEMP_MIN = 24], margin 1) cooling
    switched on at 28 is still on at 27 (and at 25); it goes off at 24. *)
Lemma cooling_still_on_at_27 :
  let s28 := Water.handleActuators (Water.Celsius (inject_Z 28))
                                   Water.initial in
  let s27 := Water.handleActuators (Water.Celsius (inject_Z 27)) s28 in
  let s25 := Water.handleActuators (Water.Celsius (inject_Z 25)) s27 in
  let s24 := Water.handleActuators (Water.Celsius (inject_Z 24)) s25 in
  Water.OPTIMAL_TEMP_MAX Water.initial = inject_Z 28 /\
  Water.TEMP_HYSTERESIS Water.initial = inject_Z 1 /\
  Water.coolingState s28 = true /\
  Water.coolingState s27 = true /\
  Water.coolingState s27 <> false /\
  Water.coolingState s25 = true /\
  Water.coolingState s24 = false.
Proof. cbv zeta. repeat split. discriminate. Qed.

(** C7, amended.  Outside manual drain, with [temp] the reading: cooling
    that is off goes on exactly when [temp >= OPTIMAL_TEMP_MAX]; cooling
    that is on goes off exactly when [temp <= OPTIMAL_TEMP_MIN] (the
    boundary-inclusive [<= lowerOff] rule; the hysteresis margin plays no
    part); strictly between [OPTIMAL_TEMP_MIN] and [OPTIMAL_TEMP_MAX] the
    prior cooling state is retained; and the cooling output follows the
    state.  So with [OPTIMAL_TEMP_MAX = 28] a reading of 28 switches
    cooling on, and it stays on at every reading above
    [OPTIMAL_TEMP_MIN]. *)
Theorem cooling_switches_at_max_and_min :
  forall (r : Water.DS18B20) (s : Water.Sketch),
    Water.manualDrainActive s = false ->
    let temp := inject_Z (Water.readWaterTemp r) in
    let s' := Water.handleActuators r s in
    (Water.coolingState s = false ->
     (Water.coolingState s' = true <->
      (Water.OPTIMAL_TEMP_MAX s <= temp)%Q)) /\
    (Water.coolingState s = true ->
     (Water.coolingState s' = false <->
      (temp <= Water.OPTIMAL_TEMP_MIN s)%Q)) /\
    ((Water.OPTIMAL_TEMP_MIN s < temp)%Q /\
     (temp < Water.OPTIMAL_TEMP_MAX s)%Q ->
     Water.coolingState s' = Water.coolingState s) /\
    Water.coolingActive s' = Water.coolingState s' /\
    Water.relays s' =
      (active_low (Water.coolingState s'),
       active_low (Water.coolingState s'),
       active_low (Water.coolingState s')).
Proof.
  intros r s M temp s'. subst s'. unfold Water.handleActuators.
  rewrite M. cbv zeta. fold temp.
  cbn [Water.coolingState Water.controlCoolingSystem Water.set_coolingState
       Water.coolingActive Water.relays Water.RELAY_PELTIER
       Water.RELAY_PUMP Water.RELAY_FAN].
  pose proof (Qle_bool_iff (Water.OPTIMAL_TEMP_MAX s) temp) as On.
  pose proof (Qle_bool_iff temp (Water.OPTIMAL_TEMP_MIN s)) as Off.
  destruct (Water.coolingState s);
    destruct (Qle_bool (Water.OPTIMAL_TEMP_MAX s) temp);
    destruct (Qle_bool temp (Water.OPTIMAL_TEMP_MIN s));
    cbn [negb]; repeat split; try reflexivity; try discriminate;
    try tauto; intros X.
  all: try (destruct X as [X1 X2]).
  all: try (exfalso; apply (Qlt_not_le _ _ X1); tauto).
  all: try (exfalso; apply (Qlt_not_le _ _ X2); tauto).
  all: try (apply Off in X; discriminate X).
  all: try (apply On in X; discriminate X).
Qed.

Lemma cooling_switches_at_max_and_min_witness :
  let s28 := Water.handleActuators (Water.Celsius (inject_Z 28))
                                   Water.initial in
  Water.coolingState s28 = true /\
  Water.coolingState
    (Water.handleActuators (Water.Celsius (inject_Z 27)) s28) = true.
Proof.
  cbv zeta.
  destruct (cooling_switches_at_max_and_min
              (Water.Celsius (inject_Z 28)) Water.initial eq_refl)
    as (On & _).
  destruct (cooling_switches_at_max_and_min
              (Water.Celsius (inject_Z 27))
              (Water.handleActuators (Water.Celsius (inject_Z 28))
                                     Water.initial) eq_refl)
    as (_ & Off & _).
  split.
  - apply (On eq_refl). vm_compute. discriminate.
  - apply not_false_is_true. intros E.
    apply (Off eq_refl) in E. vm_compute in E. apply E. reflexivity.
Defined.

(** ** Further properties of the fan control *)

Lemma update_high_idempotent v m b :
  update_high v m (update_high v m b) = update_high v m b.
Proof.
  unfold update_high.
  destruct (v >=? m); [reflexivity|].
  now destruct (v <=? int_wrap (m - HYST)).
Qed.

Lemma update_low_idempotent v m b :
  update_low v m (update_low v m b) = update_low v m b.
Proof.
  unfold update_low.
  destruct (v <=? m); [reflexivity|].
  now destruct (v >=? int_wrap (m + HYST)).
Qed.

Lemma fan_step_normal t f temp hum co2 :
  danger temp hum co2 = false ->
  fan_step t f temp hum co2 =
  let tH := update_high temp (maxTemp t) (tempHigh f) in
  let tL := update_low temp (minTemp t) (tempLow f) in
  let hH := update_high hum (maxHumid t) (humHigh f) in
  let hL := update_low hum (minHumid t) (humLow f) in
  let cH := update_high co2 (maxCO2 t) (co2High f) in
  let cL := update_low co2 (minCO2 t) (co2Low f) in
  mkFanState (fst (fan_table tH tL hH hL cH cL))
             (snd (fan_table tH tL hH hL cH cL)) tH tL hH hL cH cL.
Proof.
  intros D. unfold fan_step. rewrite D. cbv zeta.
  now destruct (fan_table _ _ _ _ _ _).
Qed.

(** X1.  Evaluating the same readings a second time changes none of the
    statics of [controlFans]: neither the sticky flags nor the two fan
    states. *)
Theorem fan_evaluation_idempotent :
  forall (temp hum co2 : Z) (s : Sketch),
    fan (controlFans temp hum co2 (controlFans temp hum co2 s)) =
    fan (controlFans temp hum co2 s).
Proof.
  intros temp hum co2 s. rewrite !controlFans_fan, controlFans_thr.
  destruct (danger temp hum co2) eqn:D.
  - unfold fan_step. rewrite D. reflexivity.
  - rewrite !(fan_step_normal _ _ _ _ _ D). cbv zeta.
    cbn [tempHigh tempLow humHigh humLow co2High co2Low].
    rewrite !update_high_idempotent, !update_low_idempotent.
    reflexivity.
Qed.

(** X2.  When no danger flag is raised and every reading lies at least one
    margin inside its setpoints, one evaluation clears all six sticky
    flags and switches both fans off, whatever the flags were before. *)
Theorem comfortable_readings_clear_flags :
  forall (temp hum co2 : Z) (s : Sketch),
    danger temp hum co2 = false ->
    (forall ch,
        is_int (min_setpoint ch (thr s)) /\
        is_int (max_setpoint ch (thr s)) /\
        min_setpoint ch (thr s) + HYST <= value ch temp hum co2
        <= max_setpoint ch (thr s) - HYST) ->
    fan (controlFans temp hum co2 s) = initial_fan.
Proof.
  intros temp hum co2 s D C. rewrite controlFans_fan.
  assert (B : forall ch,
             update_high (value ch temp hum co2) (max_setpoint ch (thr s))
                         (band_high ch (fan s)) = false /\
             update_low (value ch temp hum co2) (min_setpoint ch (thr s))
                        (band_low ch (fan s)) = false).
  { intros ch. destruct (C ch) as (Imin & Imax & R).
    pose proof (no_danger_bounds temp hum co2 ch D) as Bd.
    assert (R' : -2000 <= danger_low ch /\ danger_high ch <= 2000)
      by (destruct ch; split; now vm_compute).
    unfold update_high, update_low, is_int, INT_MIN, INT_MAX, HYST in *.
    rewrite !int_wrap_small by (unfold INT_MIN, INT_MAX; lia).
    split.
    - destruct (Z.geb_spec (value ch temp hum co2) (max_setpoint ch (thr s)));
        [lia|].
      now rewrite leb_true by lia.
    - destruct (Z.leb_spec (value ch temp hum co2) (min_setpoint ch (thr s)));
        [lia|].
      destruct (Z.geb_spec (value ch temp hum co2)
                           (min_setpoint ch (thr s) + 2)); [reflexivity|lia]. }
  rewrite (fan_step_normal _ _ _ _ _ D). cbv zeta.
  destruct (B Temperature) as [TH TL].
  destruct (B Humidity) as [HH HL].
  destruct (B GasConcentration) as [CH CL].
  cbn [value max_setpoint min_setpoint band_high band_low] in *.
  rewrite TH, TL, HH, HL, CH, CL. reflexivity.
Qed.

Lemma comfortable_readings_clear_flags_witness :
  fan (controlFans 25 70 700 (controlFans 32 60 1500 initial)) = initial_fan.
Proof.
  apply comfortable_readings_clear_flags; [reflexivity|].
  intros []; vm_compute; repeat split; discriminate.
Defined.

(** X3.  The MQ135 value: a 12-bit reading is mapped into 400..2000, so the
    sensor task never raises the low CO2 danger flag, and it raises the
    high one only for the top reading 4095. *)
Theorem co2_reading_range :
  forall raw : Z,
    0 <= raw <= 4095 ->
    let co2 := map_range raw 0 4095 400 2000 in
    400 <= co2 <= 2000 /\
    (co2 <=? CO2_DANGER_LOW) = false /\
    (co2 >=? CO2_DANGER_HIGH) = (raw =? 4095).
Proof.
  intros raw R co2. subst co2. unfold map_range.
  rewrite Z.quot_div_nonneg by lia.
  replace ((raw - 0) * (2000 - 400)) with (raw * 1600) by lia.
  change (4095 - 0) with 4095.
  unfold CO2_DANGER_LOW, CO2_DANGER_HIGH.
  pose proof (Z.div_mod (raw * 1600) 4095 ltac:(lia)) as E.
  pose proof (Z.mod_pos_bound (raw * 1600) 4095 ltac:(lia)) as M.
  split; [lia|]. split; [apply Z.leb_gt; lia|].
  destruct (Z.eqb_spec raw 4095); destruct (Z.geb_spec (raw * 1600 / 4095 + 400) 2000);
    try reflexivity; lia.
Qed.

Lemma co2_reading_range_witness :
  map_range 4094 0 4095 400 2000 = 1999 /\
  (map_range 4094 0 4095 400 2000 >=? CO2_DANGER_HIGH) = false.
Proof.
  destruct (co2_reading_range 4094 ltac:(lia)) as (_ & _ & H).
  split; [reflexivity | exact H].
Defined.

(** ** Telemetry of the sensor task *)

Ltac sensors_eval :=
  cbv beta iota zeta delta
    [readAndSendSensors controlFans send_if_changed digitalWrite
     virtualWrite with_fan with_sent with_board with_sch with_thr
     thr fan sch sent board clock connected digital virtual
     lastTemp lastHum lastCO2].

Lemma readAndSendSensors_valid t h r s :
  isnan t = false -> isnan h = false ->
  readAndSendSensors t h r s =
  let co2 := map_range r 0 4095 400 2000 in
  let s1 := controlFans (int_of_round t) (int_of_round h) co2 s in
  if connected (board s1) then
    with_sent (mkLastSent (int_of_round t) (int_of_round h) co2)
      (send_if_changed V3 co2 (lastCO2 (sent s1))
         (send_if_changed V2 (int_of_round h) (lastHum (sent s1))
            (send_if_changed V1 (int_of_round t) (lastTemp (sent s1)) s1)))
  else s1.
Proof.
  intros Nt Nh. unfold readAndSendSensors. rewrite Nt, Nh. reflexivity.
Qed.

Lemma send_if_changed_same p v s : send_if_changed p v v s = s.
Proof. unfold send_if_changed. now rewrite Z.eqb_refl. Qed.

(** X4.  With valid readings and the link up, the sensor task records the
    three rounded values as last sent, and running it again on the same
    readings sends nothing more.  With the link down it sends nothing and
    leaves the last-sent values alone, so the values go out once the link
    is back. *)
Theorem telemetry_only_on_change :
  forall (temperature humidity : Float) (mq135_raw : Z) (s : Sketch),
    isnan temperature = false -> isnan humidity = false ->
    let s1 := readAndSendSensors temperature humidity mq135_raw s in
    (connected (board s) = true ->
     sent s1 = mkLastSent (int_of_round temperature)
                          (int_of_round humidity)
                          (map_range mq135_raw 0 4095 400 2000) /\
     virtual
       (board (readAndSendSensors temperature humidity mq135_raw s1)) =
     virtual (board s1)) /\
    (connected (board s) = false ->
     sent s1 = sent s /\ virtual (board s1) = virtual (board s)).
Proof.
  intros t h r s Nt Nh s1.
  assert (S1 : connected (board s) = true ->
               sent s1 = mkLastSent (int_of_round t) (int_of_round h)
                                    (map_range r 0 4095 400 2000)).
  { intros C. subst s1. rewrite (readAndSendSensors_valid _ _ _ _ Nt Nh).
    cbv zeta.
    change (connected (board (controlFans ?a ?b ?c s)))
      with (connected (board s)).
    rewrite C. reflexivity. }
  assert (C1 : connected (board s1) = connected (board s)).
  { subst s1. rewrite (readAndSendSensors_valid _ _ _ _ Nt Nh).
    unfold send_if_changed. cbv zeta. by_cases. }
  split; intros C.
  - split; [exact (S1 C)|]. specialize (S1 C). rewrite C in C1.
    clearbody s1.
    rewrite (readAndSendSensors_valid _ _ _ _ Nt Nh). cbv zeta.
    change (connected (board (controlFans ?a ?b ?c s1)))
      with (connected (board s1)).
    change (sent (controlFans ?a ?b ?c s1)) with (sent s1).
    rewrite C1, S1. cbn [lastTemp lastHum lastCO2].
    rewrite !send_if_changed_same. reflexivity.
  - subst s1. rewrite (readAndSendSensors_valid _ _ _ _ Nt Nh).
    cbv zeta.
    change (connected (board (controlFans ?a ?b ?c s)))
      with (connected (board s)).
    rewrite C. split; reflexivity.
Qed.

Lemma telemetry_only_on_change_witness :
  let s := set_connected true initial in
  let s1 := readAndSendSensors (Fin (251 # 10)) (Fin (70 # 1)) 1000 s in
  virtual (board s1) = [(0, V3, 790); (0, V2, 70); (0, V1, 25)] /\
  virtual
    (board (readAndSendSensors (Fin (251 # 10)) (Fin (70 # 1)) 1000 s1)) =
  virtual (board s1).
Proof.
  cbv zeta. split; [reflexivity|].
  apply (telemetry_only_on_change (Fin (251 # 10)) (Fin (70 # 1)) 1000
                                  (set_connected true initial)
                                  eq_refl eq_refl).
  reflexivity.
Defined.

(** ** The tasks keep to their own globals *)

Lemma readAndSendSensors_sch t h r s :
  sch (readAndSendSensors t h r s) = sch s.
Proof.
  unfold readAndSendSensors, send_if_changed. cbv zeta. by_cases.
Qed.

Lemma readAndSendSensors_thr t h r s :
  thr (readAndSendSensors t h r s) = thr s.
Proof.
  unfold readAndSendSensors, send_if_changed. cbv zeta. by_cases.
Qed.

Lemma fire_thr i s : thr (fire i s) = thr s.
Proof.
  destruct s as [th f [ls fst fa se lss h fs nl lt ft] l [t0 conn dig virt]].
  destruct i; sketch_eval.
  - destruct lt as [[d []]|]; sketch_eval; try reflexivity;
      destruct ls, fa; reflexivity.
  - destruct ft as [[d []]|]; reflexivity.
Qed.

Lemma advance_thr fuel t s : thr (advance fuel t s) = thr s.
Proof.
  revert s. induction fuel as [|n IH]; intros s; cbn [advance]; auto.
  destruct (next_due t s); [|reflexivity].
  now rewrite IH, fire_thr.
Qed.

Lemma blynk_write_thr p v s :
  thr (blynk_write p v s) = set_threshold p v (thr s).
Proof.
  destruct p; cbn [blynk_write set_threshold]; try reflexivity.
  - apply enableScheduler_thr.
  - unfold write_V7. by_cases.
  - unfold write_V8. by_cases.
Qed.

(** X5.  Only the sensor task changes the statics of [controlFans], and it
    never changes a scheduler global; only a Blynk write changes a
    threshold, and then as [set_threshold] says (not at all for pins that
    carry no threshold). *)
Theorem tasks_keep_to_their_globals :
  forall (e : Event) (s : Sketch),
    match e with
    | Sensors _ _ _ => sch (handle e s) = sch s
    | _ => fan (handle e s) = fan s
    end /\
    match e with
    | Write p v => thr (handle e s) = set_threshold p v (thr s)
    | _ => thr (handle e s) = thr s
    end.
Proof.
  intros e s. destruct e; cbn [handle]; split.
  - apply blynk_write_fan.
  - apply blynk_write_thr.
  - unfold blynk_connected. cbv zeta.
    destruct (lastSchedulerState _); now rewrite enableScheduler_fan.
  - unfold blynk_connected. cbv zeta.
    destruct (lastSchedulerState _); now rewrite enableScheduler_thr.
  - reflexivity.
  - reflexivity.
  - apply readAndSendSensors_sch.
  - apply readAndSendSensors_thr.
  - apply fire_fan.
  - apply fire_thr.
  - apply advance_fan.
  - apply advance_thr.
Qed.

(** ** Invariants along every sequence of events *)

Section Invariants.

Variable P : Sketch -> Prop.

Hypothesis fire_keeps : forall i s, P s -> P (fire i s).
Hypothesis clock_keeps : forall t s, P s -> P (set_clock t s).

Lemma advance_keeps fuel t s : P s -> P (advance fuel t s).
Proof.
  revert s. induction fuel as [|n IH]; intros s H; cbn [advance]; auto.
  destruct (next_due t s); auto.
Qed.

Hypothesis handle_keeps :
  forall e s, (forall fuel t, e <> Elapse fuel t) -> P s -> P (handle e s).

Lemma run_keeps evs s : P s -> P (run evs s).
Proof.
  revert s. induction evs as [|e evs IH]; intros s H; [exact H|].
  apply IH. destruct e; try (apply handle_keeps; [discriminate | exact H]).
  apply advance_keeps, H.
Qed.

End Invariants.

Ltac open_sketch s :=
  destruct s as [?th ?f [?ls ?fst ?fa ?se ?lss ?h ?fs ?nl ?lt ?ft] ?l
                   [?t0 ?conn ?dig ?virt]].

Ltac pins_done :=
  cbn [last_write Pin_eqb]; repeat split; (assumption || reflexivity).

Ltac open_pins s :=
  open_sketch s; unfold pins_follow_state, pin_level;
  cbn [board digital sch fan lightState foggerState];
  intros (?L & ?F & ?I & ?E).

Lemma fire_pins i s : pins_follow_state s -> pins_follow_state (fire i s).
Proof.
  open_pins s. destruct i; sketch_eval.
  - destruct lt as [[d []]|]; sketch_eval; try pins_done;
      destruct ls, fa; sketch_eval; pins_done.
  - destruct ft as [[d []]|]; sketch_eval; pins_done.
Qed.

Lemma enableScheduler_pins b s :
  pins_follow_state s -> pins_follow_state (enableScheduler b s).
Proof.
  open_pins s. destruct b, fa, conn; sketch_eval; pins_done.
Qed.

Lemma pins_follow_state_ext s s' :
  digital (board s') = digital (board s) ->
  lightState (sch s') = lightState (sch s) ->
  foggerState (sch s') = foggerState (sch s) ->
  fan s' = fan s -> pins_follow_state s -> pins_follow_state s'.
Proof.
  unfold pins_follow_state, pin_level. intros -> -> -> ->.
  exact (fun H => H).
Qed.

Lemma controlFans_pins temp hum co2 s :
  pins_follow_state s -> pins_follow_state (controlFans temp hum co2 s).
Proof.
  open_pins s. unfold controlFans. sketch_eval. pins_done.
Qed.

Lemma readAndSendSensors_pins t h r s :
  pins_follow_state s -> pins_follow_state (readAndSendSensors t h r s).
Proof.
  intros H. unfold readAndSendSensors. cbv zeta.
  destruct (negb (isnan t) && negb (isnan h)); [|exact H].
  apply (controlFans_pins (int_of_round t) (int_of_round h)
                          (map_range r 0 4095 400 2000)) in H.
  destruct (connected _); [|exact H].
  revert H. apply pins_follow_state_ext;
    unfold send_if_changed; by_cases.
Qed.

Lemma run_pins evs s :
  pins_follow_state s -> pins_follow_state (run evs s).
Proof. apply run_keeps; clear evs s.
  - apply fire_pins.
  - intros t s. open_sketch s. exact (fun H => H).
  - intros e s NE H. destruct e; cbn [handle].
    + destruct p; cbn [blynk_write]; try exact H.
      * apply enableScheduler_pins, H.
      * revert H. unfold write_V7. by_cases; apply pins_follow_state_ext;
          reflexivity.
      * revert H. unfold write_V8. by_cases; apply pins_follow_state_ext;
          reflexivity.
    + unfold blynk_connected. cbv zeta.
      assert (H' : pins_follow_state (set_connected true s))
        by (revert H; apply pins_follow_state_ext; reflexivity).
      destruct (lastSchedulerState _); apply enableScheduler_pins, H'.
    + revert H. apply pins_follow_state_ext; reflexivity.
    + apply readAndSendSensors_pins, H.
    + apply fire_pins, H.
    + exfalso. eapply NE. reflexivity.
Qed.

(** X6.  From the state after [setup] (or any state in which the pins show
    their state variables), after every sequence of events each of the
    four output pins shows, active low, the state variable it belongs to:
    the light and fogger relays [lightState] and [foggerState], the fan
    pins the two fan states of the last evaluation. *)
Theorem pins_always_follow_state :
  forall (evs : list Event) (s : Sketch),
    pins_follow_state s -> pins_follow_state (run evs s).
Proof. exact run_pins. Qed.

Lemma pins_always_follow_state_witness :
  pins_follow_state
    (run [Write V0 1; Sensors (Fin (32 # 1)) (Fin (60 # 1)) 1000;
          Elapse 4 30000] initial).
Proof.
  apply pins_always_follow_state. repeat split.
Defined.

(** *** Cycle parameters *)

Lemma config_in_bounds_ext s s' :
  userLightOnHours (sch s') = userLightOnHours (sch s) ->
  userFoggerSeconds (sch s') = userFoggerSeconds (sch s) ->
  config_in_bounds s -> config_in_bounds s'.
Proof. unfold config_in_bounds. intros -> ->. exact (fun H => H). Qed.

Lemma fire_config i s : config_in_bounds s -> config_in_bounds (fire i s).
Proof.
  apply config_in_bounds_ext; open_sketch s; destruct i; sketch_eval.
  1,3: destruct lt as [[d []]|]; sketch_eval; try reflexivity;
    destruct ls, fa; reflexivity.
  all: destruct ft as [[d []]|]; reflexivity.
Qed.

Lemma enableScheduler_config b s :
  config_in_bounds s -> config_in_bounds (enableScheduler b s).
Proof.
  apply config_in_bounds_ext; open_sketch s;
    destruct b, fa, conn; reflexivity.
Qed.

(** X7.  The light hours stay within 1..11 and the fogger seconds within
    5..180 along every sequence of events, whatever values are written to
    V7 and V8; so the durations [scheduleGrowLight] computes never wrap
    around, and the dark phase lasts at least an hour. *)
Theorem cycle_parameters_stay_in_bounds :
  forall (evs : list Event) (s : Sketch),
    config_in_bounds s ->
    let s' := run evs s in
    config_in_bounds s' /\
    ulong_wrap (userLightOnHours (sch s') * 3600) =
      userLightOnHours (sch s') * 3600 /\
    ulong_wrap ((12 - userLightOnHours (sch s')) * 3600) =
      (12 - userLightOnHours (sch s')) * 3600 /\
    3600 <= (12 - userLightOnHours (sch s')) * 3600.
Proof.
  intros evs s H s'.
  assert (C : config_in_bounds s').
  { subst s'. revert H. apply run_keeps; clear evs s.
    - apply fire_config.
    - intros t s. apply config_in_bounds_ext; reflexivity.
    - intros e s NE H. destruct e; cbn [handle].
      + destruct p; cbn [blynk_write]; try exact H.
        * apply enableScheduler_config, H.
        * unfold write_V7. cbv zeta. destruct (negb _); [|exact H].
          destruct (Z.gtb_spec param 0), (Z.ltb_spec param 12);
            cbn [andb]; try exact H.
          destruct H as [_ Hf]. split; [cbn; lia | exact Hf].
        * unfold write_V8. cbv zeta. destruct (negb _); [|exact H].
          destruct (Z.geb_spec param 5), (Z.leb_spec param 180);
            cbn [andb]; try exact H.
          destruct H as [Hh _]. split; [exact Hh | cbn; lia].
      + unfold blynk_connected. cbv zeta.
        destruct (lastSchedulerState _); apply enableScheduler_config;
          revert H; apply config_in_bounds_ext; reflexivity.
      + exact H.
      + revert H. apply config_in_bounds_ext;
          now rewrite readAndSendSensors_sch.
      + apply fire_config, H.
      + exfalso. eapply NE. reflexivity. }
  split; [exact C|]. destruct C as [Hh _].
  rewrite !ulong_wrap_small by lia. repeat split. lia.
Qed.

Lemma cycle_parameters_stay_in_bounds_witness :
  config_in_bounds
    (run [Write V7 0; Write V7 12; Write V8 4; Write V7 11; Write V8 181;
          Write V0 1; Write V7 3] initial).
Proof.
  apply cycle_parameters_stay_in_bounds.
  vm_compute. repeat split; discriminate.
Defined.

(** *** The last known scheduler mode *)

Lemma fire_flags i s :
  schedulerEnabled (sch (fire i s)) = schedulerEnabled (sch s) /\
  lastSchedulerState (sch (fire i s)) = lastSchedulerState (sch s).
Proof.
  open_sketch s; destruct i; sketch_eval.
  - destruct lt as [[d []]|]; sketch_eval; try (split; reflexivity);
      destruct ls, fa; split; reflexivity.
  - destruct ft as [[d []]|]; split; reflexivity.
Qed.

Lemma enableScheduler_flags b s :
  schedulerEnabled (sch (enableScheduler b s)) = b /\
  lastSchedulerState (sch (enableScheduler b s)) = b.
Proof.
  open_sketch s; destruct b, fa, conn; split; reflexivity.
Qed.

(** X8.  [lastSchedulerState] equals [schedulerEnabled] after every sequence
    of events; so what [BLYNK_CONNECTED] re-applies on a reconnect is
    always the mode in force: it calls [enableScheduler] with the current
    [schedulerEnabled]. *)
Theorem reconnect_reapplies_current_mode :
  forall (evs : list Event) (s : Sketch),
    lastSchedulerState (sch s) = schedulerEnabled (sch s) ->
    let s' := run evs s in
    lastSchedulerState (sch s') = schedulerEnabled (sch s') /\
    blynk_connected s' =
    enableScheduler (schedulerEnabled (sch s')) (set_connected true s').
Proof.
  intros evs s H s'.
  assert (A : lastSchedulerState (sch s') = schedulerEnabled (sch s')).
  { subst s'. revert H.
    apply (run_keeps (fun x => lastSchedulerState (sch x) =
                               schedulerEnabled (sch x))); clear evs s.
    - intros i s H. destruct (fire_flags i s) as [-> ->]. exact H.
    - intros t s H. exact H.
    - intros e s NE H. destruct e; cbn [handle].
      + destruct p; cbn [blynk_write]; try exact H.
        * now destruct (enableScheduler_flags (negb (param =? 0)) s)
            as [-> ->].
        * unfold write_V7. by_cases; exact H.
        * unfold write_V8. by_cases; exact H.
      + unfold blynk_connected. cbv zeta.
        destruct (lastSchedulerState (sch (set_connected true s))).
        * now destruct (enableScheduler_flags true (set_connected true s))
            as [-> ->].
        * now destruct (enableScheduler_flags false (set_connected true s))
            as [-> ->].
      + exact H.
      + now rewrite readAndSendSensors_sch.
      + destruct (fire_flags i s) as [-> ->]. exact H.
      + exfalso. eapply NE. reflexivity. }
  split; [exact A|].
  unfold blynk_connected. cbv zeta.
  change (lastSchedulerState (sch (set_connected true s')))
    with (lastSchedulerState (sch s')).
  rewrite A. now destruct (schedulerEnabled (sch s')).
Qed.

Lemma reconnect_reapplies_current_mode_witness :
  let s := run [Write V0 1; Disconnected; Elapse 4 30000] initial in
  blynk_connected s = enableScheduler true (set_connected true s).
Proof.
  cbv zeta.
  apply (reconnect_reapplies_current_mode
           [Write V0 1; Disconnected; Elapse 4 30000] initial eq_refl).
Defined.

(** *** Restarting the cycle *)

(** X9.  Enabling the scheduler, or reconnecting while it was last known
    enabled, starts the light phase afresh whatever the phase was: the
    light is switched on, and the one timer left on [lightTicker] is the
    light-off timer a full light period from now; a pending restart of a
    dark phase is dropped. *)
Theorem enabling_restarts_light_phase :
  forall s : Sketch,
    let on_sec := ulong_wrap (userLightOnHours (sch s) * 3600) in
    let fresh (s' : Sketch) :=
      lightState (sch s') = true /\
      schedulerEnabled (sch s') = true /\
      lightTicker (sch s') = Some (clock (board s) + on_sec, LightOff) /\
      pin_level RELAY_LIGHT_PIN s' = Some LOW in
    fresh (enableScheduler true s) /\
    (lastSchedulerState (sch s) = true -> fresh (blynk_connected s)).
Proof.
  intros s. open_sketch s. cbv zeta.
  cbn [sch board clock userLightOnHours lastSchedulerState].
  split.
  - destruct ls, fa, conn; sketch_eval; repeat split.
  - intros ->. unfold blynk_connected. sketch_eval.
    destruct ls, fa; sketch_eval; repeat split.
Qed.

Lemma enabling_restarts_light_phase_witness :
  let s := run [Write V0 1; Elapse 4 30000] initial in
  lightState (sch s) = false /\
  lightTicker (sch s) = Some (43200, NextCycle) /\
  lightState (sch (blynk_connected s)) = true /\
  lightTicker (sch (blynk_connected s)) = Some (51600, LightOff).
Proof.
  cbv zeta.
  destruct (enabling_restarts_light_phase
              (run [Write V0 1; Elapse 4 30000] initial))
    as [_ R].
  destruct (R eq_refl) as (L & _ & T & _).
  split; [reflexivity|]. split; [reflexivity|].
  split; [exact L | exact T].
Defined.

(** *** The fogger pulse *)

(** X10.  A pulse request does nothing while the light is off or a pulse is
    flagged.  Otherwise it switches the fogger on, flags the pulse and
    arms the off-timer [userFoggerSeconds] from now; when that timer
    expires the fogger is switched off, the flag cleared, and no timer
    remains: one on and one off output per pulse. *)
Theorem fogger_pulse_lifecycle :
  forall s : Sketch,
    (lightState (sch s) = false \/ foggerActive (sch s) = true ->
     scheduleFoggerNow s = s) /\
    (lightState (sch s) = true -> foggerActive (sch s) = false ->
     let t0 := clock (board s) in
     let fs := userFoggerSeconds (sch s) in
     let s1 := scheduleFoggerNow s in
     let s2 := fire FoggerT s1 in
     foggerState (sch s1) = true /\
     foggerActive (sch s1) = true /\
     foggerOffTicker (sch s1) = Some (t0 + fs, FoggerOff) /\
     digital (board s1) = (t0, RELAY_FOGGER_PIN, LOW) :: digital (board s) /\
     foggerState (sch s2) = false /\
     foggerActive (sch s2) = false /\
     foggerOffTicker (sch s2) = None /\
     digital (board s2) =
       (Z.max (t0 + fs) t0, RELAY_FOGGER_PIN, HIGH) :: digital (board s1)).
Proof.
  intros s. open_sketch s.
  cbn [sch board clock lightState foggerActive userFoggerSeconds digital].
  split.
  - intros [-> | ->]; sketch_eval; [reflexivity | now destruct ls].
  - intros -> ->. sketch_eval. repeat split.
Qed.

Lemma fogger_pulse_lifecycle_witness :
  let s := setLightState true initial in
  let s2 := fire FoggerT (scheduleFoggerNow s) in
  foggerState (sch s2) = false /\
  digital (board s2) =
    (5, RELAY_FOGGER_PIN, HIGH) :: (0, RELAY_FOGGER_PIN, LOW)
    :: digital (board s).
Proof.
  cbv zeta.
  destruct (fogger_pulse_lifecycle (setLightState true initial))
    as [_ H].
  destruct (H eq_refl eq_refl) as (_ & _ & _ & D1 & F2 & _ & _ & D2).
  split; [exact F2|]. rewrite D2, D1. reflexivity.
Defined.

(** *** A pulse whose off-timer is dropped by [enable] *)

Lemma fire_stuck_on i s : fogger_stuck_on s -> fogger_stuck_on (fire i s).
Proof.
  open_sketch s. unfold fogger_stuck_on.
  cbn [sch foggerActive foggerState foggerOffTicker lastSchedulerState].
  intros (-> & -> & -> & ->). destruct i; sketch_eval.
  - destruct lt as [[d []]|]; sketch_eval; try (repeat split);
      destruct ls; repeat split.
  - repeat split.
Qed.

Lemma enable_stuck_on s :
  foggerActive (sch s) = true -> foggerState (sch s) = true ->
  fogger_stuck_on (enableScheduler true s).
Proof.
  open_sketch s. unfold fogger_stuck_on.
  cbn [sch foggerActive foggerState].
  intros -> ->. destruct conn; sketch_eval; repeat split.
Qed.

Lemma handle_stuck_on e s :
  disables e = false -> fogger_stuck_on s -> fogger_stuck_on (handle e s).
Proof.
  intros ND H. destruct e; cbn [handle].
  - destruct p; cbn [blynk_write]; try exact H.
    + cbn [disables] in ND. rewrite ND. cbn [negb].
      destruct H as (A & F & _). now apply enable_stuck_on.
    + revert H. open_sketch s. unfold write_V7. sketch_eval.
      by_cases; exact (fun H => H).
    + revert H. open_sketch s. unfold write_V8. sketch_eval.
      by_cases; exact (fun H => H).
  - destruct H as (A & F & T & L). unfold blynk_connected. cbv zeta.
    change (lastSchedulerState (sch (set_connected true s)))
      with (lastSchedulerState (sch s)).
    rewrite L. now apply enable_stuck_on.
  - exact H.
  - unfold fogger_stuck_on. now rewrite readAndSendSensors_sch.
  - apply fire_stuck_on, H.
  - apply advance_keeps; [apply fire_stuck_on | | exact H].
    intros t0 x. exact (fun X => X).
Qed.

Lemma run_stuck_on evs s :
  forallb (fun e => negb (disables e)) evs = true ->
  fogger_stuck_on s -> fogger_stuck_on (run evs s).
Proof.
  revert s. induction evs as [|e evs IH]; intros s ND H; [exact H|].
  cbn [forallb] in ND. apply andb_prop in ND as [ND1 ND2].
  apply negb_true_iff in ND1.
  apply IH; [exact ND2 | now apply handle_stuck_on].
Qed.

(** X11.  When the scheduler is enabled (by a write to V0 or by a reconnect)
    while a fogger pulse is running, the pulse's off-timer is detached and
    no new one is armed: the fogger stays switched on.  It remains on, in
    [foggerState] and on the relay pin, through every later sequence of
    events that does not disable the scheduler: timer expiries, time
    passing, sensor tasks, further enables and reconnects, parameter
    writes. *)
Theorem enable_during_pulse_leaves_fogger_on :
  forall s : Sketch,
    foggerActive (sch s) = true -> foggerState (sch s) = true ->
    pins_follow_state s ->
    let s1 := enableScheduler true s in
    foggerOffTicker (sch s1) = None /\
    forall evs : list Event,
      forallb (fun e => negb (disables e)) evs = true ->
      let s2 := run evs s1 in
      foggerState (sch s2) = true /\
      foggerOffTicker (sch s2) = None /\
      pin_level RELAY_FOGGER_PIN s2 = Some LOW.
Proof.
  intros s A F Pn s1.
  assert (S1 : fogger_stuck_on s1) by now apply enable_stuck_on.
  split; [apply S1|]. intros evs ND s2.
  destruct (run_stuck_on evs s1 ND S1) as (_ & F2 & T2 & _).
  fold s2 in F2, T2. split; [exact F2|]. split; [exact T2|].
  assert (P2 : pins_follow_state s2)
    by (apply run_pins, enableScheduler_pins, Pn).
  destruct P2 as (_ & PF & _). rewrite PF, F2. reflexivity.
Qed.

Lemma enable_during_pulse_leaves_fogger_on_witness :
  let s := run [Write V0 1] initial in
  let s2 := run [Elapse 4 43200; Sensors NaN NaN 0]
                (enableScheduler true s) in
  foggerState (sch s2) = true /\ pin_level RELAY_FOGGER_PIN s2 = Some LOW.
Proof.
  intros s s2.
  destruct (enable_during_pulse_leaves_fogger_on s) as [_ H];
    [reflexivity | reflexivity | repeat split |].
  destruct (H [Elapse 4 43200; Sensors NaN NaN 0] eq_refl) as (F & _ & Pn).
  split; [exact F | exact Pn].
Defined.

(** *** Whole cycles *)

Lemma after_periods_started n th f se lss h fs t0 l conn dig virt :
  1 <= h <= 11 -> 5 <= fs <= 180 ->
  after_periods n
    (mkSketch th f (cycle_started se lss h fs t0) l
              (mkBoard t0 conn dig virt)) =
  mkSketch th f
    (cycle_started se lss h fs (t0 + Z.of_nat n * (12 * 3600))) l
    (mkBoard (t0 + Z.of_nat n * (12 * 3600)) conn
             (cycle_outputs h fs t0 n ++ dig) virt).
Proof.
  intros Hh Hfs. induction n as [|m IH].
  - cbn [after_periods cycle_outputs app Z.of_nat].
    now rewrite Z.mul_0_l, Z.add_0_r.
  - cbn [after_periods]. cbv zeta. rewrite IH. cbn [board clock].
    unfold cycle_started.
    rewrite (cycle_from_armed h fs _ th f se lss l conn _ virt 0 Hh Hfs).
    assert (E : Z.of_nat (S m) * (12 * 3600) =
                Z.of_nat m * (12 * 3600) + 12 * 3600) by lia.
    rewrite E, Z.add_assoc. cbn [cycle_outputs]. cbv zeta.
    now rewrite <- app_assoc.
Qed.

(** X12.  The light cycle is exactly periodic.  With parameters in bounds and
    no pulse flagged, [n] twelve-hour periods after the scheduler was
    enabled at [t0] the scheduler is in the state a cycle start leaves,
    shifted by [n] periods, and the relay outputs made in between are, per
    period: fogger off [fs] seconds in, light off [h] hours in, light and
    fogger on again at the end of the period. *)
Theorem light_cycle_is_periodic :
  forall (n : nat) (s : Sketch),
    config_in_bounds s -> foggerActive (sch s) = false ->
    let h := userLightOnHours (sch s) in
    let fs := userFoggerSeconds (sch s) in
    let t0 := clock (board s) in
    let s1 := enableScheduler true s in
    let sn := after_periods n s1 in
    sch sn = cycle_started true true h fs (t0 + Z.of_nat n * (12 * 3600)) /\
    clock (board sn) = t0 + Z.of_nat n * (12 * 3600) /\
    digital (board sn) = cycle_outputs h fs t0 n ++ digital (board s1).
Proof.
  intros n s. open_sketch s. unfold config_in_bounds.
  cbn [sch board userLightOnHours userFoggerSeconds clock foggerActive].
  intros [Hh Hfs] ->. cbv zeta.
  rewrite enable_arms by exact Hh.
  fold (cycle_started true true h fs t0).
  rewrite after_periods_started by assumption.
  repeat split.
Qed.

Lemma light_cycle_is_periodic_witness :
  let sn := after_periods 2 (enableScheduler true initial) in
  clock (board sn) = 86400 /\
  lightTicker (sch sn) = Some (86400 + 21600, LightOff).
Proof.
  cbv zeta.
  destruct (light_cycle_is_periodic 2 initial) as (S & C & _);
    [vm_compute; repeat split; discriminate | reflexivity |].
  split; [exact C|]. rewrite S. reflexivity.
Defined.

(** ** Water dashboard: override, thermostat and read-out *)

Lemma drain_tick r s :
  Water.manualDrainActive s = true ->
  Water.handleActuators r s = Water.drain_outputs s.
Proof. intros M. unfold Water.handleActuators. now rewrite M. Qed.

Lemma drain_ticks rs s :
  Water.manualDrainActive s = true ->
  Water.actuator_ticks rs s = match rs with
                              | [] => s
                              | _ :: _ => Water.drain_outputs s
                              end.
Proof.
  revert s. induction rs as [|r rs IH]; intros s M; [reflexivity|].
  unfold Water.actuator_ticks in *. cbn [fold_left].
  rewrite (drain_tick r s M), IH by exact M.
  destruct rs; reflexivity.
Qed.

(** X13.  Manual drain supersedes the thermostat: after the drain button is
    pressed (V7 = 1), through any number of actuator ticks and whatever
    the sensor delivers, only the pump relay is on and [coolingState] and
    [coolingActive] stay as they were (so [coolingActive] may say true
    while the Peltier is off).  Releasing the button (any value but 1)
    leaves all three relays off until the next actuator tick. *)
Theorem manual_drain_overrides_thermostat :
  forall (rs : list Water.DS18B20) (released : Z) (s : Water.Sketch),
    released <> 1 ->
    let s1 := Water.actuator_ticks rs (Water.write_V7 1 s) in
    let s2 := Water.write_V7 released s1 in
    Water.relays s1 = (HIGH, LOW, HIGH) /\
    Water.manualDrainActive s1 = true /\
    Water.coolingState s1 = Water.coolingState s /\
    Water.coolingActive s1 = Water.coolingActive s /\
    Water.relays s2 = (HIGH, HIGH, HIGH) /\
    Water.manualDrainActive s2 = false /\
    Water.coolingState s2 = Water.coolingState s.
Proof.
  intros rs released s NR s1 s2. subst s2 s1.
  rewrite drain_ticks by reflexivity.
  assert (R : forall x, Water.write_V7 released x =
                        Water.mkSketch
                          (Water.OPTIMAL_TEMP_MAX x) (Water.OPTIMAL_TEMP_MIN x)
                          (Water.TEMP_HYSTERESIS x) (Water.coolingActive x)
                          false (Water.coolingState x)
                          (Water.RELAY_PELTIER x) HIGH (Water.RELAY_FAN x)).
  { intros x. unfold Water.write_V7. cbv zeta.
    destruct (Z.eqb_spec released 1) as [E|_]; [contradiction|].
    reflexivity. }
  rewrite R. destruct rs; repeat split.
Qed.

Lemma manual_drain_overrides_thermostat_witness :
  let s := Water.handleActuators (Water.Celsius (inject_Z 30))
                                 Water.initial in
  let s1 := Water.actuator_ticks
              [Water.Celsius (inject_Z 35); Water.Disconnected]
              (Water.write_V7 1 s) in
  Water.coolingActive s = true /\
  Water.relays s1 = (HIGH, LOW, HIGH) /\
  Water.coolingActive s1 = true.
Proof.
  cbv zeta.
  destruct (manual_drain_overrides_thermostat
              [Water.Celsius (inject_Z 35); Water.Disconnected] 0
              (Water.handleActuators (Water.Celsius (inject_Z 30))
                                     Water.initial))
    as (R & _ & _ & A & _); [discriminate|].
  split; [reflexivity|]. split; [exact R|]. rewrite A. reflexivity.
Defined.

(** X14.  With [OPTIMAL_TEMP_MIN] below [OPTIMAL_TEMP_MAX] the thermostat
    settles: a second actuator tick on the same reading changes
    nothing. *)
Theorem thermostat_settles :
  forall (r : Water.DS18B20) (s : Water.Sketch),
    (Water.OPTIMAL_TEMP_MIN s < Water.OPTIMAL_TEMP_MAX s)%Q ->
    Water.handleActuators r (Water.handleActuators r s) =
    Water.handleActuators r s.
Proof.
  intros r [mx mn hy ca md cs p1 p2 p3] Lt.
  cbn [Water.OPTIMAL_TEMP_MIN Water.OPTIMAL_TEMP_MAX] in Lt.
  unfold Water.handleActuators.
  cbn [Water.manualDrainActive Water.coolingState Water.OPTIMAL_TEMP_MAX
       Water.OPTIMAL_TEMP_MIN Water.TEMP_HYSTERESIS].
  destruct md; [reflexivity|]. cbv zeta.
  set (temp := inject_Z (Water.readWaterTemp r)).
  pose proof (Qle_bool_iff mx temp) as On.
  pose proof (Qle_bool_iff temp mn) as Off.
  destruct cs; cbn [negb].
  - destruct (Qle_bool temp mn) eqn:E2;
      cbn [Water.controlCoolingSystem Water.set_coolingState
           Water.manualDrainActive Water.coolingState
           Water.OPTIMAL_TEMP_MAX Water.OPTIMAL_TEMP_MIN
           Water.TEMP_HYSTERESIS negb].
    + destruct (Qle_bool mx temp) eqn:E1; [|reflexivity].
      exfalso. apply (Qlt_not_le _ _ Lt).
      apply Qle_trans with temp; tauto.
    + rewrite E2. reflexivity.
  - destruct (Qle_bool mx temp) eqn:E1;
      cbn [Water.controlCoolingSystem Water.set_coolingState
           Water.manualDrainActive Water.coolingState
           Water.OPTIMAL_TEMP_MAX Water.OPTIMAL_TEMP_MIN
           Water.TEMP_HYSTERESIS negb].
    + destruct (Qle_bool temp mn) eqn:E2; [|reflexivity].
      exfalso. apply (Qlt_not_le _ _ Lt).
      apply Qle_trans with temp; tauto.
    + rewrite E1. reflexivity.
Qed.

Lemma thermostat_settles_witness :
  Water.handleActuators (Water.Celsius (inject_Z 26))
    (Water.handleActuators (Water.Celsius (inject_Z 26))
       (Water.handleActuators (Water.Celsius (inject_Z 29)) Water.initial)) =
  Water.handleActuators (Water.Celsius (inject_Z 26))
    (Water.handleActuators (Water.Celsius (inject_Z 29)) Water.initial).
Proof.
  apply thermostat_settles. reflexivity.
Defined.

(** X15.  The two thresholds are written unchecked.  Once [OPTIMAL_TEMP_MAX] is
    at or below [OPTIMAL_TEMP_MIN], every reading between them flips the
    cooling state, and with it the three relays, on each actuator
    tick. *)
Theorem thermostat_chatters_when_thresholds_cross :
  forall (r : Water.DS18B20) (s : Water.Sketch),
    Water.manualDrainActive s = false ->
    let temp := inject_Z (Water.readWaterTemp r) in
    (Water.OPTIMAL_TEMP_MAX s <= temp)%Q ->
    (temp <= Water.OPTIMAL_TEMP_MIN s)%Q ->
    let s' := Water.handleActuators r s in
    Water.coolingState s' = negb (Water.coolingState s) /\
    Water.relays s' =
      (active_low (negb (Water.coolingState s)),
       active_low (negb (Water.coolingState s)),
       active_low (negb (Water.coolingState s))).
Proof.
  intros r s M temp On Off s'. subst s'. unfold Water.handleActuators.
  rewrite M. cbv zeta. fold temp.
  apply Qle_bool_iff in On. apply Qle_bool_iff in Off. rewrite On, Off.
  destruct (Water.coolingState s); split; reflexivity.
Qed.

Lemma thermostat_chatters_when_thresholds_cross_witness :
  let s := Water.write_V5 30 (Water.write_V6 26 Water.initial) in
  let r := Water.Celsius (inject_Z 28) in
  Water.coolingState (Water.handleActuators r s) = true /\
  Water.coolingState (Water.handleActuators r (Water.handleActuators r s))
  = false.
Proof.
  cbv zeta. split.
  - apply (thermostat_chatters_when_thresholds_cross
             (Water.Celsius (inject_Z 28))
             (Water.write_V5 30 (Water.write_V6 26 Water.initial)));
      [reflexivity | discriminate | discriminate].
  - apply (thermostat_chatters_when_thresholds_cross
             (Water.Celsius (inject_Z 28))
             (Water.handleActuators
                (Water.Celsius (inject_Z 28))
                (Water.write_V5 30 (Water.write_V6 26 Water.initial))));
      [reflexivity | discriminate | discriminate].
Defined.

(** *** Turbidity *)

Lemma turbidity_raw_value raw :
  map_range raw 1595 0 0 3000 = Z.quot ((1595 - raw) * 3000) 1595.
Proof.
  unfold map_range. rewrite Z.add_0_r.
  replace ((raw - 1595) * (3000 - 0)) with (- ((1595 - raw) * 3000)) by lia.
  change (0 - 1595) with (Z.opp 1595).
  apply (Z.quot_opp_opp ((1595 - raw) * 3000) 1595). discriminate.
Qed.

(** [readTurbidityNTU] is a tenth of the clamped, rescaled reading. *)
Lemma turbidity_cases raw :
  0 <= raw <= 4095 ->
  exists q,
    Water.readTurbidityNTU raw = q / 10 /\
    0 <= q <= 3000 /\
    (raw <= 1595 -> q = (1595 - raw) * 3000 / 1595) /\
    (1595 <= raw -> q = 0).
Proof.
  intros R. unfold Water.readTurbidityNTU. cbv zeta.
  rewrite turbidity_raw_value. unfold constrain.
  destruct (Z_le_gt_dec raw 1595) as [Le|Gt].
  - rewrite (Z.quot_div_nonneg ((1595 - raw) * 3000) 1595) by lia.
    pose proof (Z.div_mod ((1595 - raw) * 3000) 1595 ltac:(lia)) as E.
    pose proof (Z.mod_pos_bound ((1595 - raw) * 3000) 1595 ltac:(lia)) as M.
    destruct (Z.ltb_spec ((1595 - raw) * 3000 / 1595) 0); [lia|].
    destruct (Z.gtb_spec ((1595 - raw) * 3000 / 1595) 3000); [lia|].
    exists ((1595 - raw) * 3000 / 1595).
    rewrite Z.quot_div_nonneg by lia.
    repeat split; lia.
  - exists 0.
    replace ((1595 - raw) * 3000) with (- ((raw - 1595) * 3000)) by lia.
    rewrite Z.quot_opp_l by discriminate.
    rewrite (Z.quot_div_nonneg ((raw - 1595) * 3000) 1595) by lia.
    pose proof (Z.div_pos ((raw - 1595) * 3000) 1595 ltac:(lia) ltac:(lia)).
    destruct (Z.ltb_spec (- ((raw - 1595) * 3000 / 1595)) 0).
    + repeat split; try lia.
    + assert (Z0 : (raw - 1595) * 3000 / 1595 = 0) by lia.
      rewrite Z0. repeat split; try lia.
Qed.

Lemma readTurbidityNTU_bounds raw :
  0 <= raw <= 4095 -> 0 <= Water.readTurbidityNTU raw <= 300.
Proof.
  intros R. destruct (turbidity_cases raw R) as (q & -> & Q & _).
  pose proof (Z.div_mod q 10 ltac:(lia)) as Eq.
  pose proof (Z.mod_pos_bound q 10 ltac:(lia)) as Mq. lia.
Qed.

(** X16.  For a 12-bit reading the turbidity value lies in 0..300, falls as the
    reading rises, is 300 for the reading 0 and 0 for every reading from
    1590 up (1595 and above are clamped). *)
Theorem turbidity_value_range :
  forall raw : Z,
    0 <= raw <= 4095 ->
    0 <= Water.readTurbidityNTU raw <= 300 /\
    (raw = 0 -> Water.readTurbidityNTU raw = 300) /\
    (1590 <= raw -> Water.readTurbidityNTU raw = 0) /\
    (forall raw' : Z,
        raw <= raw' <= 4095 ->
        Water.readTurbidityNTU raw' <= Water.readTurbidityNTU raw).
Proof.
  pose proof turbidity_cases as V.
  intros raw R. destruct (V raw R) as (q & -> & Q & Lo & Hi).
  pose proof (Z.div_mod q 10 ltac:(lia)) as Eq.
  pose proof (Z.mod_pos_bound q 10 ltac:(lia)) as Mq.
  split; [lia|]. split; [|split].
  - intros ->. rewrite Lo by lia. reflexivity.
  - intros Ge. destruct (Z_le_gt_dec 1595 raw) as [G|L].
    + now rewrite Hi by lia.
    + rewrite Lo by lia.
      pose proof (Z.div_mod ((1595 - raw) * 3000) 1595 ltac:(lia)) as E.
      pose proof (Z.mod_pos_bound ((1595 - raw) * 3000) 1595 ltac:(lia)) as M.
      apply Z.div_small. lia.
  - intros raw' R'. destruct (V raw' ltac:(lia)) as (q' & -> & Q' & Lo' & Hi').
    apply Z.div_le_mono; [lia|].
    destruct (Z_le_gt_dec raw' 1595) as [L|G].
    + rewrite Lo, Lo' by lia. apply Z.div_le_mono; lia.
    + rewrite Hi' by lia. lia.
Qed.

Lemma turbidity_value_range_witness :
  Water.readTurbidityNTU 800 = 149 /\
  Water.readTurbidityNTU 900 <= Water.readTurbidityNTU 800.
Proof.
  destruct (turbidity_value_range 800 ltac:(lia)) as (_ & _ & _ & Mono).
  split; [reflexivity | apply Mono; lia].
Defined.

(** X17.  On the values [readTurbidityNTU] returns, the label is "Clear" below
    60, "Slightly Cloudy" from 60 to 149, "Cloudy" from 150 to 239 and
    "Very Hazy" from 240 up. *)
Theorem turbidity_label_bands :
  forall ntu : Z,
    0 <= ntu <= 300 ->
    Water.getTurbidityLabel ntu =
    if ntu <? 60 then "Clear"%string
    else if ntu <? 150 then "Slightly Cloudy"%string
    else if ntu <? 240 then "Cloudy"%string
    else "Very Hazy"%string.
Proof.
  intros ntu R.
  assert (All : forallb
                  (fun n =>
                     String.eqb
                       (Water.getTurbidityLabel (Z.of_nat n))
                       (if Z.of_nat n <? 60 then "Clear"%string
                        else if Z.of_nat n <? 150
                             then "Slightly Cloudy"%string
                             else if Z.of_nat n <? 240 then "Cloudy"%string
                                  else "Very Hazy"%string))
                  (seq 0 301) = true) by (vm_compute; reflexivity).
  rewrite forallb_forall in All.
  specialize (All (Z.to_nat ntu)).
  rewrite Z2Nat.id in All by lia.
  apply String.eqb_eq, All, in_seq. lia.
Qed.

Lemma turbidity_label_bands_witness :
  Water.getTurbidityLabel (Water.readTurbidityNTU 800) =
  "Slightly Cloudy"%string.
Proof.
  change (Water.readTurbidityNTU 800) with 149.
  apply (turbidity_label_bands 149). lia.
Defined.

(** *** Dashboard telemetry of the water sketch *)

Lemma wrapped_difference_zero a b :
  is_int a -> is_int b -> Z.abs (int_wrap (a - b)) < 1 -> a = b.
Proof.
  unfold is_int, INT_MIN, INT_MAX, int_wrap.
  change (2 ^ 31) with 2147483648. change (2 ^ 32) with 4294967296.
  intros A B H.
  pose proof (Z.div_mod (a - b + 2147483648) 4294967296 ltac:(lia)) as E.
  pose proof (Z.mod_pos_bound (a - b + 2147483648) 4294967296 ltac:(lia))
    as M.
  lia.
Qed.

Lemma wrapped_difference_small a b :
  0 <= a <= 300 -> is_int b -> Z.abs (int_wrap (a - b)) < 10 ->
  Z.abs (a - b) < 10.
Proof.
  unfold is_int, INT_MIN, INT_MAX, int_wrap.
  change (2 ^ 31) with 2147483648. change (2 ^ 32) with 4294967296.
  intros A B H.
  pose proof (Z.div_mod (a - b + 2147483648) 4294967296 ltac:(lia)) as E.
  pose proof (Z.mod_pos_bound (a - b + 2147483648) 4294967296 ltac:(lia))
    as M.
  lia.
Qed.

(** Nothing is sent, and nothing recorded, when the readings are those
    last sent (turbidity: within less than 10 of the value last sent). *)
Lemma sendSensorData_quiet r raw lvl t :
  Water.lastTemp t = Water.readWaterTemp r ->
  Z.abs (Water.readTurbidityNTU raw - Water.lastTurbidity t) < 10 ->
  Water.lastTurbidityLabel t =
    Water.getTurbidityLabel (Water.readTurbidityNTU raw) ->
  Water.lastWaterLevel t = Water.readWaterLevel lvl ->
  Water.sendSensorData r raw lvl t = t.
Proof.
  destruct t as [lt ltu lwl ll w].
  cbn [Water.lastTemp Water.lastTurbidity Water.lastTurbidityLabel
       Water.lastWaterLevel].
  intros -> Hd -> ->. unfold Water.sendSensorData. cbv zeta.
  cbn [Water.lastTemp]. rewrite Z.sub_diag.
  change (Z.abs (int_wrap 0) >=? Water.TEMP_THRESHOLD) with false.
  cbn [Water.lastTurbidity].
  rewrite int_wrap_small by (unfold INT_MIN, INT_MAX; lia).
  unfold Water.TURBIDITY_THRESHOLD.
  destruct (Z.geb_spec (Z.abs (Water.readTurbidityNTU raw - ltu)) 10);
    [lia|].
  cbn [Water.lastTurbidityLabel]. rewrite String.eqb_refl. cbn [negb].
  cbn [Water.lastWaterLevel]. rewrite Z.eqb_refl. reflexivity.
Qed.

(** X18.  After [sendSensorData] the dashboard state follows the sensors: the
    temperature, the turbidity label and the water level last sent are
    the current ones (a disconnected probe shows as -99), the turbidity
    last sent is within less than 10 of the current one, and a second call
    on the same readings sends nothing. *)
Theorem water_telemetry_follows_readings :
  forall (r : Water.DS18B20) (raw : Z) (lvl : Level) (t : Water.Telemetry),
    is_int (Water.readWaterTemp r) ->
    is_int (Water.lastTemp t) -> is_int (Water.lastTurbidity t) ->
    0 <= raw <= 4095 ->
    let t' := Water.sendSensorData r raw lvl t in
    Water.lastTemp t' = Water.readWaterTemp r /\
    Z.abs (Water.readTurbidityNTU raw - Water.lastTurbidity t') < 10 /\
    Water.lastTurbidityLabel t' =
      Water.getTurbidityLabel (Water.readTurbidityNTU raw) /\
    Water.lastWaterLevel t' = Water.readWaterLevel lvl /\
    Water.sendSensorData r raw lvl t' = t'.
Proof.
  intros r raw lvl t It Il Iu R t'.
  pose proof (readTurbidityNTU_bounds raw R) as B.
  assert (F : Water.lastTemp t' = Water.readWaterTemp r /\
              Z.abs (Water.readTurbidityNTU raw - Water.lastTurbidity t')
              < 10 /\
              Water.lastTurbidityLabel t' =
                Water.getTurbidityLabel (Water.readTurbidityNTU raw) /\
              Water.lastWaterLevel t' = Water.readWaterLevel lvl).
  { subst t'. destruct t as [lt ltu lwl ll w].
    cbn [Water.lastTemp Water.lastTurbidity] in Il, Iu.
    unfold Water.sendSensorData. cbv zeta.
    cbn [Water.lastTemp Water.lastTurbidity Water.lastTurbidityLabel
         Water.lastWaterLevel Water.written].
    unfold Water.TEMP_THRESHOLD, Water.TURBIDITY_THRESHOLD.
    destruct (Z.geb_spec (Z.abs (int_wrap (Water.readWaterTemp r - lt))) 1)
      as [G1|G1];
      cbn [Water.lastTemp Water.lastTurbidity Water.lastTurbidityLabel
           Water.lastWaterLevel Water.written];
      (destruct (Z.geb_spec
                   (Z.abs (int_wrap (Water.readTurbidityNTU raw - ltu))) 10)
        as [G2|G2];
       cbn [Water.lastTemp Water.lastTurbidity Water.lastTurbidityLabel
            Water.lastWaterLevel Water.written];
       (destruct (String.eqb_spec
                    (Water.getTurbidityLabel (Water.readTurbidityNTU raw))
                    ll) as [G3|G3];
        cbn [negb Water.lastTemp Water.lastTurbidity
             Water.lastTurbidityLabel Water.lastWaterLevel Water.written];
        (destruct (Z.eqb_spec (Water.readWaterLevel lvl) lwl) as [G4|G4];
         cbn [negb Water.lastTemp Water.lastTurbidity
              Water.lastTurbidityLabel Water.lastWaterLevel
              Water.written]))).
    all: repeat split; try reflexivity; try (symmetry; assumption).
    all: try (symmetry; now apply wrapped_difference_zero).
    all: try (rewrite Z.sub_diag; reflexivity).
    all: try (now apply wrapped_difference_small). }
  destruct F as (F1 & F2 & F3 & F4).
  repeat split; try assumption.
  now apply sendSensorData_quiet.
Qed.

Lemma water_telemetry_follows_readings_witness :
  let t := Water.sendSensorData (Water.Celsius (265 # 10)) 800 LOW
                                Water.initial_telemetry in
  Water.written t =
    [(Water.V3, Water.PStr "OK"); (Water.V2, Water.PInt 1);
     (Water.V4, Water.PStr "Slightly Cloudy"); (Water.V1, Water.PInt 149);
     (Water.V0, Water.PInt 26)] /\
  Water.sendSensorData (Water.Celsius (265 # 10)) 800 LOW t = t.
Proof.
  cbv zeta. split; [reflexivity|].
  apply (water_telemetry_follows_readings
           (Water.Celsius (265 # 10)) 800 LOW Water.initial_telemetry);
    vm_compute; split; discriminate.
Defined.
